(** * Tool-call emulation of the OpenAI-compatible server (vllm/entrypoints/openai/tools.py)

    A shallow embedding of [ToolsCallsTemplate.renderToolsList],
    [OpenAIToolsPrompter.inject_prompt] and [ChatPromptCapture], with the
    properties of the prompt injection, of the finalisation of captured
    payloads and of the conversion of raw calls into tool-call records.

    Python objects that the code mutates in place (the request, the capture)
    are threaded explicitly: a method that mutates [self] returns the new
    object next to its outcome, also when the outcome is an exception. *)

From Stdlib Require Import String Ascii List ZArith Bool Lia DecimalString.
From Stdlib Require DecimalPos DecimalZ.
Import ListNotations.
Local Open Scope string_scope.
Local Open Scope Z_scope.

(** ** Python values and exceptions *)

Module Py.

(** The exceptions the embedded code can raise. *)
Inductive PyExn : Type :=
| TypeError
| ValueError
| KeyError
| IndexError
| RecursionError.

(** Outcome of a Python expression or call: a value, or a raised exception. *)
Inductive Exec (A : Type) : Type :=
| Returned (a : A)
| Raised (e : PyExn).
Arguments Returned {A} a.
Arguments Raised {A} e.

Definition bind {A B : Type} (m : Exec A) (k : A -> Exec B) : Exec B :=
  match m with
  | Returned a => k a
  | Raised e => Raised e
  end.

Definition fmap {A B : Type} (f : A -> B) (m : Exec A) : Exec B :=
  bind m (fun a => Returned (f a)).

Definition returns {A : Type} (m : Exec A) : bool :=
  match m with
  | Returned _ => true
  | Raised _ => false
  end.

#[local] Set Warnings "-register-all".

(** The values [json.loads] can produce.  A dict keeps its items in insertion
    order, as Python's does; a float is kept as the literal that denotes it. *)
Inductive PyVal : Type :=
| PyNone
| PyBool (b : bool)
| PyInt (z : Z)
| PyFloat (literal : string)
| PyStr (s : string)
| PyList (l : list PyVal)
| PyDict (items : list (string * PyVal)).

(** Outcome of [json.loads] on a str: the decoded value, the library's
    [JSONDecodeError], or another exception raised by the decoder (on CPython
    a [RecursionError] on a deeply nested text, a [ValueError] on an integer
    literal beyond the digit limit). *)
Inductive Loaded : Type :=
| Decoded (v : PyVal)
| JSONDecodeError
| LoadRaised (e : PyExn).

(** [len(s)] for a str. *)
Definition len_str (s : string) : Z := Z.of_nat (String.length s).

(** [len(l)] for a list. *)
Definition len {A : Type} (l : list A) : Z := Z.of_nat (List.length l).

(** [str(i)] for an int: the decimal numeral, with a leading minus sign. *)
Definition str (i : Z) : string := NilZero.string_of_int (Z.to_int i).

(** [needle in s] for two strs: [needle] occurs in [s] as a substring. *)
Fixpoint str_contains (needle s : string) : bool :=
  String.prefix needle s ||
  match s with
  | EmptyString => false
  | String _ s' => str_contains needle s'
  end.

(** [d[k]] on the items of a dict. *)
Fixpoint dict_get (k : string) (items : list (string * PyVal)) : option PyVal :=
  match items with
  | [] => None
  | (k', v) :: rest => if String.eqb k k' then Some v else dict_get k rest
  end.

(** [k in d] on the items of a dict. *)
Definition dict_has (k : string) (items : list (string * PyVal)) : bool :=
  match dict_get k items with
  | Some _ => true
  | None => false
  end.

(** [x == k] for a value [x] and a str [k]: only an equal str is equal. *)
Definition eq_str (k : string) (x : PyVal) : bool :=
  match x with
  | PyStr s => String.eqb s k
  | _ => false
  end.

(** [k in x] for a str [k]: key membership on a dict, substring test on a
    str, element membership on a list, [TypeError] on the other values
    ("argument of type ... is not iterable"). *)
Definition contains (k : string) (x : PyVal) : Exec bool :=
  match x with
  | PyDict items => Returned (dict_has k items)
  | PyStr s => Returned (str_contains k s)
  | PyList l => Returned (existsb (eq_str k) l)
  | PyNone | PyBool _ | PyInt _ | PyFloat _ => Raised TypeError
  end.

(** [x[k]] for a str [k]: the item of a dict, [KeyError] when the key is
    missing, [TypeError] on every other value (a str or a list takes integer
    indices, the other values are not subscriptable). *)
Definition getitem (x : PyVal) (k : string) : Exec PyVal :=
  match x with
  | PyDict items =>
      match dict_get k items with
      | Some v => Returned v
      | None => Raised KeyError
      end
  | _ => Raised TypeError
  end.

(** [l[i]] for a list and an int: a negative index counts from the end,
    [IndexError] outside [-len(l) <= i < len(l)]. *)
Definition list_getitem {A : Type} (l : list A) (i : Z) : Exec A :=
  let j := if i <? 0 then len l + i else i in
  if (0 <=? j) && (j <? len l) then
    match nth_error l (Z.to_nat j) with
    | Some a => Returned a
    | None => Raised IndexError
    end
  else Raised IndexError.

(** [a + b] where both operands are a str or [None]: concatenation of two
    strs, [TypeError] as soon as one operand is [None]. *)
Definition add_str (a b : option string) : Exec string :=
  match a, b with
  | Some x, Some y => Returned (x ++ y)
  | _, _ => Raised TypeError
  end.

(** The whitespace characters of [str.split()] (within ASCII). *)
Definition is_space (c : ascii) : bool :=
  let n := nat_of_ascii c in
  (Nat.eqb n 32 || (Nat.leb 9 n && Nat.leb n 13) || (Nat.leb 28 n && Nat.leb n 31))%bool.

(** [s.split()] : the maximal runs of non-whitespace characters. *)
Fixpoint split_whitespace (cur : string) (s : string) : list string :=
  match s with
  | EmptyString => if String.eqb cur "" then [] else [cur]
  | String c s' =>
      if is_space c
      then (if String.eqb cur "" then [] else [cur]) ++ split_whitespace "" s'
      else split_whitespace (cur ++ String c "") s'
  end.

(** [s.split(sep)] for a non-empty [sep]: the text is cut at the
    non-overlapping occurrences of [sep] found from left to right; [skip]
    counts the characters of an occurrence still to be passed over. *)
Fixpoint split_on (sep : string) (skip : nat) (cur : string) (s : string) : list string :=
  match s with
  | EmptyString => [cur]
  | String c s' =>
      match skip with
      | S k => split_on sep k cur s'
      | O =>
          if String.prefix sep s
          then cur :: split_on sep (Nat.pred (String.length sep)) "" s'
          else split_on sep O (cur ++ String c "") s'
      end
  end.

(** [s.split(sep)]: whitespace splitting when [sep] is [None], [ValueError]
    ("empty separator") when it is the empty str. *)
Definition split (s : string) (sep : option string) : Exec (list string) :=
  match sep with
  | None => Returned (split_whitespace "" s)
  | Some EmptyString => Raised ValueError
  | Some sep' => Returned (split_on sep' O "" s)
  end.

End Py.

Export Py.

Notation "x <- m ;; k" := (Py.bind m (fun x => k))
  (at level 61, m at next level, right associativity).

(** ** The request and the records of the protocol

    [protocol.py] is not among the sources: each record below has the fields
    that [tools.py] reads or passes to its constructor. *)

(** Modelled from the spec: the [function] part of a [ToolDefinition]
    ([{ name, description, parameters }]); [tools.py] reads [name] only. *)
Record FunctionDefinition : Type := {
  fd_name : string;
  fd_description : option string;
  fd_parameters : PyVal
}.

(** Modelled from the spec: a [ToolDefinition], [ChatCompletionToolParam] in
    the code, which reads [tool.type] and [tool.function.name]. *)
Record ChatCompletionToolParam : Type := {
  tool_type : string;
  tool_function : FunctionDefinition
}.

(** One turn of the conversation; [content] may be [None]
    ([content_from_assistant] tests it). *)
Record ChatMessage : Type := {
  role : string;
  content : option string
}.

(** [request.messages] is either a raw prompt ([isinstance(..., str)]) or a
    list of turns. *)
Inductive Messages : Type :=
| MessagesStr (prompt : string)
| MessagesList (turns : list ChatMessage).

Record ChatCompletionRequest : Type := {
  model : string;
  messages : Messages;
  tools : option (list ChatCompletionToolParam);
  tool_choice : option string;
  stream : bool
}.

Definition set_messages (request : ChatCompletionRequest) (m : Messages) : ChatCompletionRequest :=
  {| model := model request;
     messages := m;
     tools := tools request;
     tool_choice := tool_choice request;
     stream := stream request |}.

Definition set_tool_choice (request : ChatCompletionRequest) (c : option string) : ChatCompletionRequest :=
  {| model := model request;
     messages := messages request;
     tools := tools request;
     tool_choice := c;
     stream := stream request |}.

Definition set_content (m : ChatMessage) (c : string) : ChatMessage :=
  {| role := role m; content := Some c |}.

(** [Function(name=..., arguments=...)]. *)
Record Function : Type := {
  name : string;
  arguments : string
}.

(** [ChatCompletionMessageToolCall(id=..., type=..., function=...)]. *)
Record ChatCompletionMessageToolCall : Type := {
  id : string;
  type : string;
  function : Function
}.

(** [ChoiceDeltaToolCall(index=..., id=..., type=..., function=...)]. *)
Record ChoiceDeltaToolCall : Type := {
  delta_index : Z;
  delta_id : string;
  delta_type : string;
  delta_function : Function
}.

(** ** ToolsCallsTemplate *)

(** The jinja template is an external file: the three views it renders are
    the fields of the record.  [render_CALL_TOKEN] is what
    [get_func_call_token] returns; the prompter tests it against [None]. *)
Record ToolsCallsTemplate : Type := {
  render_FUNCTIONS_LIST : option string -> list ChatCompletionToolParam -> string;
  render_CALL_TOKEN : option string;
  render_CALLS_RESPONSES : list ChatCompletionMessageToolCall -> string
}.

Definition get_func_call_token (self : ToolsCallsTemplate) : option string :=
  render_CALL_TOKEN self.

Definition renderToolResponses (self : ToolsCallsTemplate)
    (tool_calls : list ChatCompletionMessageToolCall) : string :=
  render_CALLS_RESPONSES self tool_calls.

(** The [for] loop of [renderToolsList]: the first tool of type ["function"]
    whose name is the choice. *)
Fixpoint find_tool (tool_choice : string) (tools_list : list ChatCompletionToolParam)
    : option ChatCompletionToolParam :=
  match tools_list with
  | [] => None
  | tool :: rest =>
      if String.eqb (tool_type tool) "function"
         && String.eqb (fd_name (tool_function tool)) tool_choice
      then Some tool
      else find_tool tool_choice rest
  end.

(** [None] is Python's [None]: the choice names no tool of the list. *)
Definition renderToolsList (self : ToolsCallsTemplate) (tool_choice : option string)
    (tools_list : list ChatCompletionToolParam) : option string :=
  let tool_choice :=
    match tool_choice with
    | Some c => if String.eqb c "auto" then None else Some c
    | None => None
    end in
  match tool_choice with
  | Some c =>
      match find_tool c tools_list with
      | Some tool => Some (render_FUNCTIONS_LIST self (Some c) [tool])
      | None => None
      end
  | None => Some (render_FUNCTIONS_LIST self None tools_list)
  end.

(** ** OpenAIToolsPrompter *)

Record OpenAIToolsPrompter : Type := {
  template : ToolsCallsTemplate;
  call_token_str : option string;
  call_token_pre : option string
}.

(** [__init__]: the token is rendered once and kept, with its first
    character ([call_token_str[0]], [IndexError] on an empty token); a token
    that is [None] is logged and [call_token_pre] stays unset. *)
Definition new_OpenAIToolsPrompter (t : ToolsCallsTemplate) : Exec OpenAIToolsPrompter :=
  match get_func_call_token t with
  | None => Returned {| template := t; call_token_str := None; call_token_pre := None |}
  | Some EmptyString => Raised IndexError
  | Some (String c rest) =>
      Returned {| template := t;
                  call_token_str := Some (String c rest);
                  call_token_pre := Some (String c "") |}
  end.

Definition func_call_token (self : OpenAIToolsPrompter) : option string :=
  call_token_str self.

Definition content_from_assistant (self : OpenAIToolsPrompter)
    (message_content : option string)
    (tool_calls : list ChatCompletionMessageToolCall) : string :=
  let text := renderToolResponses (template self) tool_calls in
  match message_content with
  | None => text
  | Some c => c ++ String "010"%char "" ++ text
  end.

Section Injection.

(** [a is b] compares object identities, which a str value does not carry:
    [same_object a b] tells whether the two equal strs are one object. *)
Variable same_object : string -> string -> bool.

Definition py_is (a b : string) : bool := String.eqb a b && same_object a b.

(** The request is mutated in place: the result pairs the request as the call
    leaves it with the outcome of the call. *)
Definition inject_prompt (self : OpenAIToolsPrompter) (request : ChatCompletionRequest)
    : ChatCompletionRequest * Exec unit :=
  match tools request with
  | Some request_tools =>
      match call_token_str self with
      | Some _ =>
          if negb (len request_tools =? 0) then
            let select_tool_choice :=
              match tool_choice request with
              | Some c => if negb (py_is c "auto") then Some c else None
              | None => None
              end in
            let text_inject :=
              renderToolsList (template self) select_tool_choice request_tools in
            match messages request with
            | MessagesStr prompt =>
                match add_str text_inject (Some prompt) with
                | Returned text => (set_messages request (MessagesStr text), Returned tt)
                | Raised e => (request, Raised e)
                end
            | MessagesList (first :: rest) =>
                match add_str text_inject (content first) with
                | Returned text =>
                    (set_messages request (MessagesList (set_content first text :: rest)),
                     Returned tt)
                | Raised e => (request, Raised e)
                end
            | MessagesList [] => (request, Returned tt)
            end
          else (request, Returned tt)
      | None => (request, Returned tt)
      end
  | None => (request, Returned tt)
  end.

End Injection.

(** ** ChatPromptCapture *)

Record ChatPromptCapture : Type := {
  capture_content : string;
  maybe_function_call : bool;
  is_function_call : bool;
  prefix_size : Z;
  calls_list : list PyVal
}.

(** [__init__]. *)
Definition new_ChatPromptCapture : ChatPromptCapture :=
  {| capture_content := "";
     maybe_function_call := false;
     is_function_call := false;
     prefix_size := 0;
     calls_list := [] |}.

Definition reset (self : ChatPromptCapture) (reset_calls_list : bool) : ChatPromptCapture :=
  {| capture_content := "";
     maybe_function_call := false;
     is_function_call := false;
     prefix_size := 0;
     calls_list := if reset_calls_list then [] else calls_list self |}.

Definition num_calls (self : ChatPromptCapture) : Z := len (calls_list self).

(** [self.calls_list.append(call_dict)]. *)
Definition append_call (self : ChatPromptCapture) (call_dict : PyVal) : ChatPromptCapture :=
  {| capture_content := capture_content self;
     maybe_function_call := maybe_function_call self;
     is_function_call := is_function_call self;
     prefix_size := prefix_size self;
     calls_list := calls_list self ++ [call_dict] |}.

Section Capture.

(** [json.loads] on a str.  [JSONDecodeError] is the one exception the code
    catches; any other exception of the decoder leaves [make_calls_list]. *)
Variable json_loads : string -> Loaded.

(** [json.dumps] on a decoded value. *)
Variable json_dumps : PyVal -> string.

(** The body of the [for] loop of [make_calls_list] for one segment.  An
    exception other than [JSONDecodeError], from the decoder or from the
    membership test, leaves the [try] block. *)
Definition make_calls_step (self : ChatPromptCapture) (v_call : string)
    : ChatPromptCapture * Exec unit :=
  if negb (len_str v_call =? 0) then
    match json_loads v_call with
    | Decoded call_dict =>
        match contains "call" call_dict with
        | Returned true => (append_call self call_dict, Returned tt)
        | Returned false => (self, Returned tt)
        | Raised e => (self, Raised e)
        end
    | JSONDecodeError => (self, Returned tt)
    | LoadRaised e => (self, Raised e)
    end
  else (self, Returned tt).

(** The [for] loop: the first exception stops it, the calls appended before
    stay in the list. *)
Fixpoint make_calls_loop (self : ChatPromptCapture) (segments : list string)
    : ChatPromptCapture * Exec unit :=
  match segments with
  | [] => (self, Returned tt)
  | v_call :: rest =>
      match make_calls_step self v_call with
      | (self', Returned _) => make_calls_loop self' rest
      | (self', Raised e) => (self', Raised e)
      end
  end.

Definition make_calls_list (self : ChatPromptCapture) (prompter : OpenAIToolsPrompter)
    : ChatPromptCapture * Exec unit :=
  match split (capture_content self) (func_call_token prompter) with
  | Returned segments => make_calls_loop self segments
  | Raised e => (self, Raised e)
  end.

(** [Function(name=...)] declares [name] as a str and the id is built by
    ["call_" + call["call"] + ...]: a name that is not a str raises, in the
    constructor's validation or in the concatenation. *)
Definition as_str (v : PyVal) : Exec string :=
  match v with
  | PyStr s => Returned s
  | _ => Raised TypeError
  end.

Definition to_ChatCompletionMessageToolCall (self : ChatPromptCapture) (call_id : Z)
    : Exec (option ChatCompletionMessageToolCall) :=
  if negb (len (calls_list self) =? 0) && (call_id <? len (calls_list self)) then
    call <- list_getitem (calls_list self) call_id ;;
    has_arguments <- contains "arguments" call ;;
    arguments <- (if has_arguments : bool then getitem call "arguments" else Returned PyNone) ;;
    call_name <- getitem call "call" ;;
    call_name <- as_str call_name ;;
    let function_call :=
      {| name := call_name;
         arguments := match arguments with
                      | PyNone => ""
                      | _ => json_dumps arguments
                      end |} in
    Returned (Some {| id := "call_" ++ call_name ++ "_" ++ str call_id;
                      type := "function";
                      function := function_call |})
  else Returned None.

(** [for call_id in range(calls_count)]: the indices [start], [start + 1], ...
    in turn, one per remaining iteration. *)
Fixpoint for_range {A : Type} (f : Z -> Exec A) (start : Z) (count : nat) : Exec (list A) :=
  match count with
  | O => Returned []
  | S n =>
      x <- f start ;;
      rest <- for_range f (start + 1) n ;;
      Returned (x :: rest)
  end.

Definition to_ChatCompletionMessageToolCallList (self : ChatPromptCapture)
    : Exec (list (option ChatCompletionMessageToolCall)) :=
  let calls_count := num_calls self in
  for_range (to_ChatCompletionMessageToolCall self) 0 (Z.to_nat calls_count).

Definition to_ChoiceDeltaToolCall (self : ChatPromptCapture) (call_id : Z)
    : Exec (option ChoiceDeltaToolCall) :=
  mesg <- to_ChatCompletionMessageToolCall self call_id ;;
  match mesg with
  | Some mesg =>
      Returned (Some {| delta_index := call_id;
                        delta_id := id mesg;
                        delta_type := type mesg;
                        delta_function := function mesg |})
  | None => Returned None
  end.

Definition to_ChoiceDeltaToolCallList (self : ChatPromptCapture)
    : Exec (list (option ChoiceDeltaToolCall)) :=
  let calls_count := num_calls self in
  for_range (to_ChoiceDeltaToolCall self) 0 (Z.to_nat calls_count).

End Capture.

(** ** A decoder and an encoder to run the code on

    [json.loads] and [json.dumps] belong to Python's library and are
    parameters of the embedding above.  The two functions below follow the
    library's decoder and encoder on ASCII text and serve to evaluate the
    code on concrete payloads.  Not covered: [\u] escapes (rejected here),
    and the value of a float, which is carried as its literal and printed
    back unchanged. *)

Module Json.

Definition dquote : ascii := "034"%char.
Definition backslash : ascii := "092"%char.

Definition is_ws (c : ascii) : bool :=
  let n := nat_of_ascii c in
  (Nat.eqb n 32 || Nat.eqb n 9 || Nat.eqb n 10 || Nat.eqb n 13)%bool.

Definition is_digit (c : ascii) : bool :=
  let n := nat_of_ascii c in (Nat.leb 48 n && Nat.leb n 57)%bool.

Fixpoint skip_ws (s : string) : string :=
  match s with
  | String c s' => if is_ws c then skip_ws s' else s
  | EmptyString => s
  end.

(** The longest prefix of digits, and what follows it. *)
Fixpoint take_digits (s : string) : string * string :=
  match s with
  | String c s' =>
      if is_digit c
      then let (d, r) := take_digits s' in (String c d, r)
      else ("", s)
  | EmptyString => ("", s)
  end.

Fixpoint int_of_digits (acc : Z) (d : string) : Z :=
  match d with
  | String c d' => int_of_digits (10 * acc + (Z.of_nat (nat_of_ascii c) - 48)) d'
  | EmptyString => acc
  end.

Definition unescape (e : ascii) : option ascii :=
  if Ascii.eqb e dquote then Some dquote
  else if Ascii.eqb e backslash then Some backslash
  else if Ascii.eqb e "/" then Some "/"%char
  else if Ascii.eqb e "b" then Some "008"%char
  else if Ascii.eqb e "f" then Some "012"%char
  else if Ascii.eqb e "n" then Some "010"%char
  else if Ascii.eqb e "r" then Some "013"%char
  else if Ascii.eqb e "t" then Some "009"%char
  else None.

(** The characters of a string literal after its opening quote, up to the
    closing one; a raw control character is an error. *)
Fixpoint scan_string (acc : string) (s : string) : option (string * string) :=
  match s with
  | EmptyString => None
  | String c s' =>
      if Ascii.eqb c dquote then Some (acc, s')
      else if Ascii.eqb c backslash then
        match s' with
        | String e s'' =>
            match unescape e with
            | Some c' => scan_string (acc ++ String c' "") s''
            | None => None
            end
        | EmptyString => None
        end
      else if Nat.ltb (nat_of_ascii c) 32 then None
      else scan_string (acc ++ String c "") s'
  end.

(** The optional fraction or exponent of a number: [mark] and at least one
    digit, with an optional sign when [signed]. *)
Definition scan_part (mark : ascii -> bool) (signed : bool) (s : string) : string * string :=
  match s with
  | String m s' =>
      if mark m then
        let (sign, s'') :=
          match s' with
          | String g r =>
              if signed && (Ascii.eqb g "+" || Ascii.eqb g "-") then (String g "", r) else ("", s')
          | EmptyString => ("", s')
          end in
        let (d, r) := take_digits s'' in
        match d with
        | EmptyString => ("", s)
        | _ => (String m "" ++ sign ++ d, r)
        end
      else ("", s)
  | EmptyString => ("", s)
  end.

(** A number: an optional minus sign, then a single 0 or digits that do not
    start with 0, then an optional fraction and exponent; an int when it has
    neither, a float otherwise. *)
Definition scan_number (s : string) : option (PyVal * string) :=
  let (sign, s1) :=
    match s with
    | String "-" r => ("-", r)
    | _ => ("", s)
    end in
  let (d, r) := take_digits s1 in
  let int_part :=
    match d with
    | EmptyString => None
    | String "0" _ => Some ("0", substring 1 (String.length s1) s1)
    | _ => Some (d, r)
    end in
  match int_part with
  | None => None
  | Some (d, r) =>
      let (frac, r1) := scan_part (fun c => Ascii.eqb c ".") false r in
      let (exp, r2) := scan_part (fun c => Ascii.eqb c "e" || Ascii.eqb c "E") true r1 in
      match frac ++ exp with
      | EmptyString =>
          Some (PyInt (if String.eqb sign "-" then - int_of_digits 0 d else int_of_digits 0 d), r2)
      | part => Some (PyFloat (sign ++ d ++ part), r2)
      end
  end.

(** [d[k] = v] on the items of a dict: a key already there keeps its place. *)
Fixpoint dict_set (items : list (string * PyVal)) (k : string) (v : PyVal)
    : list (string * PyVal) :=
  match items with
  | [] => [(k, v)]
  | (k', v') :: rest =>
      if String.eqb k k' then (k', v) :: rest else (k', v') :: dict_set rest k v
  end.

Definition strip_prefix (p s : string) : option string :=
  if String.prefix p s
  then Some (substring (String.length p) (String.length s) s)
  else None.

(** One value at the head of [s], and the text after it. *)
Fixpoint scan_once (fuel : nat) (s : string) : option (PyVal * string) :=
  match fuel with
  | O => None
  | S fuel =>
      match s with
      | EmptyString => None
      | String c s' =>
          if Ascii.eqb c dquote then
            match scan_string "" s' with
            | Some (x, r) => Some (PyStr x, r)
            | None => None
            end
          else if Ascii.eqb c "[" then
            match skip_ws s' with
            | String "]" r => Some (PyList [], r)
            | r => scan_array fuel [] r
            end
          else if Ascii.eqb c "{" then
            match skip_ws s' with
            | String "}" r => Some (PyDict [], r)
            | r => scan_object fuel [] r
            end
          else
            match strip_prefix "null" s, strip_prefix "true" s, strip_prefix "false" s with
            | Some r, _, _ => Some (PyNone, r)
            | _, Some r, _ => Some (PyBool true, r)
            | _, _, Some r => Some (PyBool false, r)
            | _, _, _ =>
                match strip_prefix "NaN" s, strip_prefix "Infinity" s, strip_prefix "-Infinity" s with
                | Some r, _, _ => Some (PyFloat "NaN", r)
                | _, Some r, _ => Some (PyFloat "Infinity", r)
                | _, _, Some r => Some (PyFloat "-Infinity", r)
                | _, _, _ => scan_number s
                end
            end
      end
  end
with scan_array (fuel : nat) (acc : list PyVal) (s : string) : option (PyVal * string) :=
  match fuel with
  | O => None
  | S fuel =>
      match scan_once fuel s with
      | Some (v, r) =>
          match skip_ws r with
          | String "," r' => scan_array fuel (acc ++ [v]) (skip_ws r')
          | String "]" r' => Some (PyList (acc ++ [v]), r')
          | _ => None
          end
      | None => None
      end
  end
with scan_object (fuel : nat) (acc : list (string * PyVal)) (s : string) : option (PyVal * string) :=
  match fuel with
  | O => None
  | S fuel =>
      match s with
      | String q s' =>
          if Ascii.eqb q dquote then
            match scan_string "" s' with
            | Some (k, r) =>
                match skip_ws r with
                | String ":" r' =>
                    match scan_once fuel (skip_ws r') with
                    | Some (v, r'') =>
                        match skip_ws r'' with
                        | String "," r3 => scan_object fuel (dict_set acc k v) (skip_ws r3)
                        | String "}" r3 => Some (PyDict (dict_set acc k v), r3)
                        | _ => None
                        end
                    | None => None
                    end
                | _ => None
                end
            | None => None
            end
          else None
      | EmptyString => None
      end
  end.

(** The decoding of [s]: one value, surrounded by whitespace only. *)
Definition parse (s : string) : option PyVal :=
  match scan_once (S (String.length s)) (skip_ws s) with
  | Some (v, r) =>
      match skip_ws r with
      | EmptyString => Some v
      | _ => None
      end
  | None => None
  end.

(** [json.loads(s)]: a text that does not decode raises [JSONDecodeError].
    The limits that depend on the interpreter (recursion depth, digit limit
    of an integer literal) are not reproduced: this decoder raises nothing
    else. *)
Definition loads (s : string) : Loaded :=
  match parse s with
  | Some v => Decoded v
  | None => JSONDecodeError
  end.

(** The encoder, with [json.dumps]'s defaults: [", "] between items, [": "]
    after a key, every character outside the printable ASCII range escaped. *)

Definition hex_digit (n : nat) : ascii :=
  if Nat.ltb n 10 then ascii_of_nat (48 + n) else ascii_of_nat (87 + n).

Definition escape_char (c : ascii) : string :=
  let n := nat_of_ascii c in
  if Ascii.eqb c dquote then String backslash (String dquote "")
  else if Ascii.eqb c backslash then String backslash (String backslash "")
  else if Nat.eqb n 10 then String backslash "n"
  else if Nat.eqb n 13 then String backslash "r"
  else if Nat.eqb n 9 then String backslash "t"
  else if Nat.eqb n 8 then String backslash "b"
  else if Nat.eqb n 12 then String backslash "f"
  else if (Nat.leb 32 n && Nat.leb n 126)%bool then String c ""
  else String backslash "u00" ++ String (hex_digit (Nat.div n 16)) (String (hex_digit (Nat.modulo n 16)) "").

Fixpoint escape (s : string) : string :=
  match s with
  | EmptyString => ""
  | String c s' => escape_char c ++ escape s'
  end.

Definition quote (s : string) : string :=
  String dquote (escape s) ++ String dquote "".

Fixpoint dumps (v : PyVal) : string :=
  match v with
  | PyNone => "null"
  | PyBool true => "true"
  | PyBool false => "false"
  | PyInt z => str z
  | PyFloat literal => literal
  | PyStr s => quote s
  | PyList l =>
      "[" ++
      (fix items (l : list PyVal) : string :=
         match l with
         | [] => ""
         | [x] => dumps x
         | x :: rest => dumps x ++ ", " ++ items rest
         end) l ++ "]"
  | PyDict d =>
      "{" ++
      (fix items (d : list (string * PyVal)) : string :=
         match d with
         | [] => ""
         | [(k, x)] => quote k ++ ": " ++ dumps x
         | (k, x) :: rest => quote k ++ ": " ++ dumps x ++ ", " ++ items rest
         end) d ++ "}"
  end.

End Json.

(** ** Concrete objects to run the code on *)

Module Example.

(** ["..."] as a JSON string literal. *)
Definition q (s : string) : string := String Json.dquote s ++ String Json.dquote "".

Fixpoint tool_names (tools_list : list ChatCompletionToolParam) : string :=
  match tools_list with
  | [] => ""
  | tool :: rest => " " ++ fd_name (tool_function tool) ++ tool_names rest
  end.

(** A template whose tool list names the tools and the choice, and whose
    call token is the spec's [<<CALL>>]. *)
Definition demo_template : ToolsCallsTemplate :=
  {| render_FUNCTIONS_LIST := fun choice tools_list =>
       "Tools:" ++ tool_names tools_list ++
       match choice with
       | Some c => ". Use " ++ c ++ ". "
       | None => ". "
       end;
     render_CALL_TOKEN := Some "<<CALL>>";
     render_CALLS_RESPONSES := fun tool_calls =>
       String.concat ", " (map (fun c => name (function c)) tool_calls) |}.

Definition prompter : OpenAIToolsPrompter :=
  {| template := demo_template;
     call_token_str := Some "<<CALL>>";
     call_token_pre := Some "<" |}.

Definition tool (n : string) : ChatCompletionToolParam :=
  {| tool_type := "function";
     tool_function := {| fd_name := n; fd_description := None; fd_parameters := PyDict [] |} |}.

Definition user (text : string) : ChatMessage :=
  {| role := "user"; content := Some text |}.

Definition request (m : Messages) (tl : option (list ChatCompletionToolParam))
    (choice : option string) : ChatCompletionRequest :=
  {| model := "m"; messages := m; tools := tl; tool_choice := choice; stream := false |}.

(** No two strs are ever the same object. *)
Definition never_same : string -> string -> bool := fun _ _ => false.

Definition capture (text : string) (calls : list PyVal) : ChatPromptCapture :=
  {| capture_content := text;
     maybe_function_call := false;
     is_function_call := true;
     prefix_size := 8;
     calls_list := calls |}.

(** [{"call": "search"}] and [{"call": "f", "arguments": {"x": 1}}]. *)
Definition call_search : PyVal := PyDict [("call", PyStr "search")].
Definition call_f : PyVal :=
  PyDict [("call", PyStr "f"); ("arguments", PyDict [("x", PyInt 1)])].

Definition text_search : string := "{" ++ q "call" ++ ":" ++ q "search" ++ "}".
Definition text_f : string :=
  "{" ++ q "call" ++ ": " ++ q "f" ++ ", " ++ q "arguments" ++ ": {" ++ q "x" ++ ": 1}}".

(** The spec's scenario: the choice is ["weather"], the only tool ["time"]. *)
Definition weather_request (m : Messages) : ChatCompletionRequest :=
  request m (Some [tool "time"]) (Some "weather").

Definition two_tools_request (m : Messages) : ChatCompletionRequest :=
  request m (Some [tool "time"; tool "weather"]) (Some "weather").

End Example.

(** ** Vocabulary of the statements *)

(** A raw call as the converter expects it: a dict whose ["call"] is a str. *)
Definition well_formed_call (v : PyVal) : bool :=
  match v with
  | PyDict d =>
      match dict_get "call" d with
      | Some (PyStr _) => true
      | _ => false
      end
  | _ => false
  end.

(** The record [to_ChatCompletionMessageToolCall] builds from the items [d]
    of a call named [call_name] at position [call_id]. *)
Definition record_of (json_dumps : PyVal -> string) (d : list (string * PyVal))
    (call_name : string) (call_id : Z) : ChatCompletionMessageToolCall :=
  {| id := "call_" ++ call_name ++ "_" ++ str call_id;
     type := "function";
     function :=
       {| name := call_name;
          arguments := match dict_get "arguments" d with
                       | Some PyNone | None => ""
                       | Some v => json_dumps v
                       end |} |}.

(** A record with an [index] field next to its payload. *)
Definition with_index (index : Z) (mesg : ChatCompletionMessageToolCall) : ChoiceDeltaToolCall :=
  {| delta_index := index;
     delta_id := id mesg;
     delta_type := type mesg;
     delta_function := function mesg |}.

(** The records of a list, each with its position counted from [start]. *)
Fixpoint index_from (start : Z) (records : list (option ChatCompletionMessageToolCall))
    : list (option ChoiceDeltaToolCall) :=
  match records with
  | [] => []
  | mesg :: rest => option_map (with_index start) mesg :: index_from (start + 1) rest
  end.

(** The fields of a capture other than its calls list. *)
Definition scan_state (self : ChatPromptCapture) : string * bool * bool * Z :=
  (capture_content self, maybe_function_call self, is_function_call self, prefix_size self).

(** The capture with another calls list. *)
Definition set_calls_list (self : ChatPromptCapture) (calls : list PyVal) : ChatPromptCapture :=
  {| capture_content := capture_content self;
     maybe_function_call := maybe_function_call self;
     is_function_call := is_function_call self;
     prefix_size := prefix_size self;
     calls_list := calls |}.

(** A segment on which the decoder raises [JSONDecodeError], or that decodes
    to a JSON object. *)
Definition object_or_invalid (json_loads : string -> Loaded) (v_call : string) : bool :=
  match json_loads v_call with
  | Decoded (PyDict _) | JSONDecodeError => true
  | Decoded _ | LoadRaised _ => false
  end.

(** The objects with a ["call"] key among the decodings of the non-empty
    segments, in the order of the segments. *)
Fixpoint decoded_calls (json_loads : string -> Loaded) (segments : list string)
    : list PyVal :=
  match segments with
  | [] => []
  | v_call :: rest =>
      (if negb (len_str v_call =? 0) then
         match json_loads v_call with
         | Decoded (PyDict d) => if dict_has "call" d then [PyDict d] else []
         | _ => []
         end
       else []) ++ decoded_calls json_loads rest
  end.

(** ** The remaining accessors *)

(** [func_call_token_size]: [len(self.call_token_str)], [TypeError] when the
    token is [None]. *)
Definition func_call_token_size (self : OpenAIToolsPrompter) : Exec Z :=
  match call_token_str self with
  | Some token => Returned (len_str token)
  | None => Raised TypeError
  end.

(** [content_from_tool]: the content of the tool message, as it is. *)
Definition content_from_tool (self : OpenAIToolsPrompter) (message : ChatMessage)
    : option string :=
  content message.

(** The test of the loop of [renderToolsList] on one tool. *)
Definition tool_matches (tool_choice : string) (tool : ChatCompletionToolParam) : bool :=
  String.eqb (tool_type tool) "function"
  && String.eqb (fd_name (tool_function tool)) tool_choice.

(** The turns of a conversation, none for a raw prompt. *)
Definition turns_of (m : Messages) : list ChatMessage :=
  match m with
  | MessagesStr _ => []
  | MessagesList turns => turns
  end.

(** [suffix] ends the text [s]. *)
Definition ends_with (suffix s : string) : Prop := exists text, s = text ++ suffix.

(** The circumstances under which [inject_prompt] fails: a defined token and a
    non-empty tools list, with either no rendered text for a conversation
    that is a raw prompt or has a turn, or a first turn whose content is
    [None]. *)
Definition injection_fails (self : OpenAIToolsPrompter) (request : ChatCompletionRequest)
    : Prop :=
  call_token_str self <> None /\
  exists request_tools,
    tools request = Some request_tools /\
    request_tools <> [] /\
    ((renderToolsList (template self) (tool_choice request) request_tools = None /\
      messages request <> MessagesList []) \/
     (exists first rest,
        messages request = MessagesList (first :: rest) /\ content first = None)).

(** What [inject_prompt] keeps of a conversation [m] when it leaves [m']: a
    raw prompt stays one and ends with the former prompt; a list of turns
    keeps its length, the roles and every turn after the first, and the
    content of the first turn is the former one or ends with it. *)
Definition conversation_kept (m m' : Messages) : Prop :=
  match m, m' with
  | MessagesStr prompt, MessagesStr prompt' => ends_with prompt prompt'
  | MessagesList turns, MessagesList turns' =>
      List.length turns' = List.length turns /\
      map role turns' = map role turns /\
      List.tl turns' = List.tl turns /\
      match hd_error turns, hd_error turns' with
      | Some first, Some first' =>
          content first' = content first \/
          exists text text', content first = Some text /\
                             content first' = Some text' /\
                             ends_with text text'
      | None, None => True
      | _, _ => False
      end
  | _, _ => False
  end.

(** The body of [to_ChatCompletionMessageToolCall] once [call] has been read
    from the list. *)
Definition convert_call (json_dumps : PyVal -> string) (call : PyVal) (call_id : Z)
    : Exec (option ChatCompletionMessageToolCall) :=
  match call with
  | PyDict d =>
      match dict_get "call" d with
      | Some (PyStr call_name) => Returned (Some (record_of json_dumps d call_name call_id))
      | Some _ => Raised TypeError
      | None => Raised KeyError
      end
  | _ => Raised TypeError
  end.

(** ["call" in v] holds: what [make_calls_list] tests before it appends. *)
Definition has_call (v : PyVal) : Prop := contains "call" v = Returned true.

(** The payload of a record, its [id] left out. *)
Definition payload (mesg : option ChatCompletionMessageToolCall) : option (string * Function) :=
  option_map (fun m => (type m, function m)) mesg.

(** * Properties *)

(** ** Prompt injection *)

Section InjectionFacts.

Variable same_object : string -> string -> bool.

Lemma find_tool_none (choice : string) (tools_list : list ChatCompletionToolParam) :
  Forall (fun tool => fd_name (tool_function tool) <> choice) tools_list ->
  find_tool choice tools_list = None.
Proof.
  induction 1 as [| tool rest Hname _ IH]; simpl.
  - reflexivity.
  - destruct (String.eqb_spec (fd_name (tool_function tool)) choice) as [E | _].
    + contradiction.
    + rewrite andb_false_r. exact IH.
Qed.

Lemma find_tool_some (choice : string) (tools_list : list ChatCompletionToolParam)
    (tool : ChatCompletionToolParam) :
  find_tool choice tools_list = Some tool ->
  In tool tools_list /\ tool_type tool = "function" /\ fd_name (tool_function tool) = choice.
Proof.
  induction tools_list as [| t rest IH]; simpl.
  - discriminate.
  - destruct (String.eqb_spec (tool_type t) "function") as [Et | _]; simpl.
    + destruct (String.eqb_spec (fd_name (tool_function t)) choice) as [En | _].
      * intros [= ->]. auto.
      * intros H. destruct (IH H) as (Hin & H'). auto.
    + intros H. destruct (IH H) as (Hin & H'). auto.
Qed.

(** The normalisation of [inject_prompt] and the one of [renderToolsList]
    compose to the latter: whatever the identity test answers, the rendering
    is the one of the request's own choice. *)
Lemma select_tool_choice_render (t : ToolsCallsTemplate) (choice : option string)
    (tools_list : list ChatCompletionToolParam) :
  renderToolsList t
    match choice with
    | Some c => if negb (py_is same_object c "auto") then Some c else None
    | None => None
    end tools_list
  = renderToolsList t choice tools_list.
Proof.
  destruct choice as [c |]; [| reflexivity].
  unfold py_is. destruct (String.eqb_spec c "auto") as [-> | Hc].
  - destruct (same_object "auto" "auto"); reflexivity.
  - reflexivity.
Qed.

Lemma renderToolsList_unknown (t : ToolsCallsTemplate) (choice : string)
    (tools_list : list ChatCompletionToolParam) :
  choice <> "auto" ->
  Forall (fun tool => fd_name (tool_function tool) <> choice) tools_list ->
  renderToolsList t (Some choice) tools_list = None.
Proof.
  intros Hauto Hnames. unfold renderToolsList.
  destruct (String.eqb_spec choice "auto") as [E | _]; [contradiction |].
  now rewrite find_tool_none.
Qed.

(** What [inject_prompt] does, by the rendering of the request's choice. *)
Lemma inject_prompt_unfold (self : OpenAIToolsPrompter) (request : ChatCompletionRequest)
    (token : string) (request_tools : list ChatCompletionToolParam) :
  call_token_str self = Some token ->
  tools request = Some request_tools ->
  request_tools <> [] ->
  inject_prompt same_object self request =
    let text_inject := renderToolsList (template self) (tool_choice request) request_tools in
    match messages request with
    | MessagesStr prompt =>
        match add_str text_inject (Some prompt) with
        | Returned text => (set_messages request (MessagesStr text), Returned tt)
        | Raised e => (request, Raised e)
        end
    | MessagesList (first :: rest) =>
        match add_str text_inject (content first) with
        | Returned text =>
            (set_messages request (MessagesList (set_content first text :: rest)), Returned tt)
        | Raised e => (request, Raised e)
        end
    | MessagesList [] => (request, Returned tt)
    end.
Proof.
  intros Htoken Htools Hne. unfold inject_prompt.
  rewrite Htools, Htoken.
  destruct request_tools as [| tool rest]; [contradiction |].
  change (negb (len (tool :: rest) =? 0)) with true. cbv iota.
  now rewrite select_tool_choice_render.
Qed.

Lemma inject_prompt_skip (self : OpenAIToolsPrompter) (request : ChatCompletionRequest) :
  tools request = None \/ tools request = Some [] \/ call_token_str self = None ->
  inject_prompt same_object self request = (request, Returned tt).
Proof.
  unfold inject_prompt. intros [H | [H | H]]; rewrite H.
  - reflexivity.
  - now destruct (call_token_str self).
  - now destruct (tools request).
Qed.

(** [inject_prompt] never touches the [tools] and [tool_choice] fields (nor
    [model] and [stream]). *)
Lemma inject_prompt_frame (self : OpenAIToolsPrompter) (request : ChatCompletionRequest) :
  let request' := fst (inject_prompt same_object self request) in
  tools request' = tools request /\
  tool_choice request' = tool_choice request /\
  model request' = model request /\
  stream request' = stream request.
Proof.
  unfold inject_prompt.
  destruct (tools request) as [tl |] eqn:Htools; [| simpl; auto].
  destruct (call_token_str self); [| simpl; auto].
  destruct (negb (len tl =? 0)); [| simpl; auto].
  destruct (messages request) as [prompt | [| first rest]].
  - destruct (add_str _ _); simpl; auto.
  - simpl; auto.
  - destruct (add_str _ _); simpl; auto.
Qed.

End InjectionFacts.

(** C1, as the code has it: when [tool_choice] names a tool (a name other
    than ["auto"]) and no declared tool has that name, [renderToolsList]
    answers [None], never the rendering of the full tool list, and
    [inject_prompt] leaves the request as it was, conversation included. *)
Theorem inject_prompt_unknown_tool_choice
    (same_object : string -> string -> bool) (self : OpenAIToolsPrompter)
    (request : ChatCompletionRequest) (choice : string) :
  tool_choice request = Some choice ->
  choice <> "auto" ->
  (forall tl, tools request = Some tl ->
              Forall (fun tool => fd_name (tool_function tool) <> choice) tl) ->
  fst (inject_prompt same_object self request) = request /\
  (forall tl, tools request = Some tl ->
              renderToolsList (template self) (tool_choice request) tl = None /\
              renderToolsList (template self) (tool_choice request) tl
                <> Some (render_FUNCTIONS_LIST (template self) None tl)).
Proof.
  intros Hchoice Hauto Hnames.
  assert (Hrender : forall tl, tools request = Some tl ->
            renderToolsList (template self) (tool_choice request) tl = None).
  { intros tl Htl. rewrite Hchoice. apply renderToolsList_unknown; auto. }
  split.
  - destruct (call_token_str self) as [token |] eqn:Htoken.
    2:{ now rewrite inject_prompt_skip by auto. }
    destruct (tools request) as [[| tool rest] |] eqn:Htools.
    + now rewrite inject_prompt_skip by auto.
    + rewrite (inject_prompt_unfold same_object self request token (tool :: rest))
        by (auto; discriminate).
      rewrite (Hrender _ eq_refl). cbv zeta.
      destruct (messages request) as [prompt | [| first turns]]; reflexivity.
    + now rewrite inject_prompt_skip by auto.
  - intros tl Htl. rewrite (Hrender tl Htl). split; [reflexivity | discriminate].
Qed.

(** C7: with [tool_choice] equal to ["auto"] the rendering is the one of an
    absent choice, the full tool list with the choice unset, and
    [inject_prompt] produces the same conversation and the same outcome. *)
Theorem tool_choice_auto_is_unset
    (same_object : string -> string -> bool) (self : OpenAIToolsPrompter)
    (request : ChatCompletionRequest) (tools_list : list ChatCompletionToolParam) :
  renderToolsList (template self) (Some "auto") tools_list
    = Some (render_FUNCTIONS_LIST (template self) None tools_list) /\
  renderToolsList (template self) None tools_list
    = Some (render_FUNCTIONS_LIST (template self) None tools_list) /\
  messages (fst (inject_prompt same_object self (set_tool_choice request (Some "auto"))))
    = messages (fst (inject_prompt same_object self (set_tool_choice request None))) /\
  snd (inject_prompt same_object self (set_tool_choice request (Some "auto")))
    = snd (inject_prompt same_object self (set_tool_choice request None)).
Proof.
  split; [reflexivity | split; [reflexivity |]].
  unfold inject_prompt. cbn [set_tool_choice tools tool_choice messages].
  destruct (tools request) as [tl |]; [| split; reflexivity].
  destruct (call_token_str self); [| split; reflexivity].
  destruct (negb (len tl =? 0)); [| split; reflexivity].
  assert (E : renderToolsList (template self)
                (if negb (py_is same_object "auto" "auto") then Some "auto" else None) tl
              = renderToolsList (template self) None tl)
    by (destruct (py_is same_object "auto" "auto"); reflexivity).
  rewrite E.
  destruct (messages request) as [prompt | [| first rest]].
  - destruct (add_str _ _); split; reflexivity.
  - split; reflexivity.
  - destruct (add_str _ _); split; reflexivity.
Qed.

(** C8: [inject_prompt] never changes [tools] and [tool_choice]; without
    tools, with an empty tool list or with an undefined token it returns the
    request unchanged; otherwise the rendered text is prepended to the raw
    prompt, or to the content of the first turn, the other turns staying as
    they were and in their order (and nothing changes when there is no
    turn). *)
Theorem inject_prompt_modifies_conversation_only
    (same_object : string -> string -> bool) (self : OpenAIToolsPrompter)
    (request : ChatCompletionRequest) :
  let result := inject_prompt same_object self request in
  (tools (fst result) = tools request /\ tool_choice (fst result) = tool_choice request) /\
  (tools request = None \/ tools request = Some [] \/ call_token_str self = None ->
   result = (request, Returned tt)) /\
  (forall token request_tools text,
     call_token_str self = Some token ->
     tools request = Some request_tools ->
     request_tools <> [] ->
     renderToolsList (template self) (tool_choice request) request_tools = Some text ->
     (forall prompt,
        messages request = MessagesStr prompt ->
        result = (set_messages request (MessagesStr (text ++ prompt)), Returned tt)) /\
     (forall first rest text0,
        messages request = MessagesList (first :: rest) ->
        content first = Some text0 ->
        result = (set_messages request
                    (MessagesList (set_content first (text ++ text0) :: rest)),
                  Returned tt)) /\
     (messages request = MessagesList [] -> result = (request, Returned tt))).
Proof.
  intros result. split; [| split].
  - destruct (inject_prompt_frame same_object self request) as (Ht & Hc & _). auto.
  - apply inject_prompt_skip.
  - intros token request_tools text Htoken Htools Hne Hrender. subst result.
    rewrite (inject_prompt_unfold same_object self request token request_tools) by assumption.
    rewrite Hrender. cbv zeta. repeat split.
    + intros prompt ->. reflexivity.
    + intros first rest text0 -> ->. reflexivity.
    + intros ->. reflexivity.
Qed.

(** ** The capture *)

Section CaptureFacts.

Variable json_loads : string -> Loaded.
Variable json_dumps : PyVal -> string.

Lemma list_getitem_in_bounds {A : Type} (l : list A) (i : Z) :
  0 <= i < len l ->
  exists a, nth_error l (Z.to_nat i) = Some a /\ list_getitem l i = Returned a.
Proof.
  intros Hi. unfold list_getitem.
  destruct (Z.ltb_spec i 0) as [Hneg | _]; [lia |].
  destruct (Z.leb_spec 0 i) as [_ | Hneg]; [| lia].
  destruct (Z.ltb_spec i (len l)) as [_ | Hge]; [| lia].
  simpl. destruct (nth_error l (Z.to_nat i)) as [a |] eqn:E.
  - exists a. auto.
  - apply nth_error_None in E. unfold len in Hi. lia.
Qed.

Lemma guard_in_bounds (self : ChatPromptCapture) (call_id : Z) :
  0 <= call_id < num_calls self ->
  negb (len (calls_list self) =? 0) && (call_id <? len (calls_list self)) = true.
Proof.
  unfold num_calls. intros Hi.
  destruct (Z.eqb_spec (len (calls_list self)) 0) as [E | _]; [lia |].
  destruct (Z.ltb_spec call_id (len (calls_list self))); [reflexivity | lia].
Qed.

Lemma guard_out_of_bounds (self : ChatPromptCapture) (call_id : Z) :
  num_calls self <= call_id ->
  negb (len (calls_list self) =? 0) && (call_id <? len (calls_list self)) = false.
Proof.
  unfold num_calls. intros Hi.
  destruct (Z.ltb_spec call_id (len (calls_list self))); [lia |].
  apply andb_false_r.
Qed.

(** Beyond the last call the converter answers [None]. *)
Lemma to_call_beyond (self : ChatPromptCapture) (call_id : Z) :
  num_calls self <= call_id ->
  to_ChatCompletionMessageToolCall json_dumps self call_id = Returned None.
Proof.
  intros Hi. unfold to_ChatCompletionMessageToolCall.
  now rewrite guard_out_of_bounds.
Qed.

(** On a position of the list, the converter runs its body on that call. *)
Lemma to_call_at (self : ChatPromptCapture) (call_id : Z) :
  0 <= call_id < num_calls self ->
  exists call,
    nth_error (calls_list self) (Z.to_nat call_id) = Some call /\
    to_ChatCompletionMessageToolCall json_dumps self call_id =
      match call with
      | PyDict d =>
          match dict_get "call" d with
          | Some (PyStr call_name) => Returned (Some (record_of json_dumps d call_name call_id))
          | Some _ => Raised TypeError
          | None => Raised KeyError
          end
      | _ => Raised TypeError
      end.
Proof.
  intros Hi.
  destruct (list_getitem_in_bounds (calls_list self) call_id Hi) as (call & Hnth & Hget).
  exists call. split; [exact Hnth |].
  unfold to_ChatCompletionMessageToolCall.
  rewrite guard_in_bounds by assumption. rewrite Hget. cbn [bind].
  destruct call as [| b | z | f | s | l | d]; try reflexivity.
  - cbn [contains bind]. destruct (str_contains "arguments" s); reflexivity.
  - cbn [contains bind]. destruct (existsb (eq_str "arguments") l); reflexivity.
  - cbn [contains bind getitem]. unfold dict_has, record_of.
    destruct (dict_get "arguments" d) as [v |]; cbn [bind];
      destruct (dict_get "call" d) as [[| b | z | f | call_name | l | d'] |];
      reflexivity.
Qed.

(** On a well-formed call the converter returns its record. *)
Lemma to_call_well_formed (self : ChatPromptCapture) (call_id : Z)
    (d : list (string * PyVal)) (call_name : string) :
  0 <= call_id < num_calls self ->
  nth_error (calls_list self) (Z.to_nat call_id) = Some (PyDict d) ->
  dict_get "call" d = Some (PyStr call_name) ->
  to_ChatCompletionMessageToolCall json_dumps self call_id
    = Returned (Some (record_of json_dumps d call_name call_id)).
Proof.
  intros Hi Hnth Hcall.
  destruct (to_call_at self call_id Hi) as (call & Hnth' & ->).
  rewrite Hnth in Hnth'. injection Hnth' as <-. now rewrite Hcall.
Qed.

(** A record returned on a position of the list comes from a well-formed
    call at that position. *)
Lemma to_call_inv (self : ChatPromptCapture) (call_id : Z)
    (mesg : ChatCompletionMessageToolCall) :
  0 <= call_id < num_calls self ->
  to_ChatCompletionMessageToolCall json_dumps self call_id = Returned (Some mesg) ->
  exists d call_name,
    nth_error (calls_list self) (Z.to_nat call_id) = Some (PyDict d) /\
    dict_get "call" d = Some (PyStr call_name) /\
    mesg = record_of json_dumps d call_name call_id.
Proof.
  intros Hi Hret.
  destruct (to_call_at self call_id Hi) as (call & Hnth & E).
  rewrite E in Hret.
  destruct call as [| b | z | f | s | l | d]; try discriminate.
  destruct (dict_get "call" d) as [[| b | z | f | call_name | l | d'] |] eqn:Hcall;
    try discriminate.
  injection Hret as <-. exists d, call_name. auto.
Qed.

(** On a position of the list the converter never answers [None]. *)
Lemma to_call_not_none (self : ChatPromptCapture) (call_id : Z) :
  0 <= call_id < num_calls self ->
  to_ChatCompletionMessageToolCall json_dumps self call_id <> Returned None.
Proof.
  intros Hi Hret.
  destruct (to_call_at self call_id Hi) as (call & Hnth & E).
  rewrite E in Hret.
  destruct call as [| b | z | f | s | l | d]; try discriminate.
  destruct (dict_get "call" d) as [[| b | z | f | call_name | l | d'] |];
    discriminate.
Qed.

Lemma for_range_length {A : Type} (f : Z -> Exec A) (start : Z) (count : nat) (l : list A) :
  for_range f start count = Returned l -> List.length l = count.
Proof.
  revert start l. induction count as [| n IH]; intros start l; simpl.
  - intros [= <-]. reflexivity.
  - destruct (f start) as [x | e]; [| discriminate]. cbn [bind].
    destruct (for_range f (start + 1) n) as [rest | e] eqn:E; [| discriminate].
    cbn [bind]. intros [= <-]. simpl. f_equal. exact (IH _ _ E).
Qed.

Lemma index_from_length (start : Z) (records : list (option ChatCompletionMessageToolCall)) :
  List.length (index_from start records) = List.length records.
Proof.
  revert start. induction records as [| mesg rest IH]; intros start; simpl; auto.
Qed.

Lemma index_from_nth (records : list (option ChatCompletionMessageToolCall)) :
  forall (start : Z) (k : nat),
    nth_error (index_from start records) k
      = option_map (option_map (with_index (start + Z.of_nat k))) (nth_error records k).
Proof.
  induction records as [| mesg rest IH]; intros start [| k]; try reflexivity.
  - simpl. now rewrite Z.add_0_r.
  - cbn [index_from nth_error]. rewrite IH. do 2 f_equal. f_equal. lia.
Qed.

(** The delta converter is the record converter followed by [with_index]. *)
Lemma to_delta_as_call (self : ChatPromptCapture) (call_id : Z) :
  to_ChoiceDeltaToolCall json_dumps self call_id
    = fmap (option_map (with_index call_id))
        (to_ChatCompletionMessageToolCall json_dumps self call_id).
Proof.
  unfold to_ChoiceDeltaToolCall, fmap.
  destruct (to_ChatCompletionMessageToolCall json_dumps self call_id) as [[mesg |] | e];
    reflexivity.
Qed.

Lemma for_range_delta (self : ChatPromptCapture) (count : nat) :
  forall start,
    for_range (to_ChoiceDeltaToolCall json_dumps self) start count
      = fmap (index_from start)
          (for_range (to_ChatCompletionMessageToolCall json_dumps self) start count).
Proof.
  induction count as [| n IH]; intros start.
  - reflexivity.
  - cbn [for_range]. rewrite to_delta_as_call, IH. unfold fmap.
    destruct (to_ChatCompletionMessageToolCall json_dumps self start) as [mesg | e];
      [| reflexivity].
    cbn [bind].
    destruct (for_range (to_ChatCompletionMessageToolCall json_dumps self) (start + 1) n);
      reflexivity.
Qed.

(** The loop over [range(count)] returns as soon as every index does. *)
Lemma for_range_returns {A : Type} (f : Z -> Exec A) (count : nat) :
  forall start,
    (forall k, start <= k < start + Z.of_nat count -> returns (f k) = true) ->
    returns (for_range f start count) = true.
Proof.
  induction count as [| n IH]; intros start Hf.
  - reflexivity.
  - cbn [for_range].
    assert (H0 := Hf start ltac:(lia)).
    destruct (f start) as [x | e]; [| discriminate]. cbn [bind].
    assert (Hrest := IH (start + 1) ltac:(intros k Hk; apply Hf; lia)).
    destruct (for_range f (start + 1) n); [reflexivity | discriminate].
Qed.

(** On a list of well-formed calls both list converters return. *)
Lemma call_list_returns (self : ChatPromptCapture) :
  forallb well_formed_call (calls_list self) = true ->
  returns (to_ChatCompletionMessageToolCallList json_dumps self) = true.
Proof.
  intros Hwf. unfold to_ChatCompletionMessageToolCallList.
  apply for_range_returns. intros k Hk.
  assert (Hi : 0 <= k < num_calls self) by (unfold num_calls, len in *; lia).
  destruct (to_call_at self k Hi) as (call & Hnth & ->).
  rewrite forallb_forall in Hwf.
  assert (Hc := Hwf call (nth_error_In _ _ Hnth)).
  destruct call as [| b | z | f | s | l | d]; try discriminate.
  simpl in Hc.
  destruct (dict_get "call" d) as [[| b | z | f | call_name | l | d'] |];
    try discriminate.
  reflexivity.
Qed.

(** *** Finalisation *)

Lemma make_calls_step_appends (self self' : ChatPromptCapture) (v_call : string)
    (out : Exec unit) :
  make_calls_step json_loads self v_call = (self', out) ->
  scan_state self' = scan_state self /\
  exists added,
    calls_list self' = (calls_list self ++ added)%list /\
    Forall (fun call => contains "call" call = Returned true) added.
Proof.
  unfold make_calls_step.
  assert (Hsame : forall o, (self, o) = (self', out) ->
            scan_state self' = scan_state self /\
            exists added,
              calls_list self' = (calls_list self ++ added)%list /\
              Forall (fun call => contains "call" call = Returned true) added).
  { intros o [= <- _]. split; [reflexivity |].
    exists []. now rewrite app_nil_r. }
  destruct (negb (len_str v_call =? 0)); [| apply Hsame].
  destruct (json_loads v_call) as [call_dict | | e']; [| apply Hsame | apply Hsame].
  destruct (contains "call" call_dict) as [[|] | e] eqn:Hin; try apply Hsame.
  intros [= <- _]. split; [reflexivity |].
  exists [call_dict]. split; [reflexivity |]. now constructor.
Qed.

(** Whatever the payload and whatever the outcome, finalisation only appends
    to the calls list, and only values [v] for which ["call" in v] holds. *)
Lemma make_calls_loop_appends (segments : list string) :
  forall (self self' : ChatPromptCapture) (out : Exec unit),
    make_calls_loop json_loads self segments = (self', out) ->
    scan_state self' = scan_state self /\
    exists added,
      calls_list self' = (calls_list self ++ added)%list /\
      Forall (fun call => contains "call" call = Returned true) added.
Proof.
  induction segments as [| v_call rest IH]; intros self self' out; cbn [make_calls_loop].
  - intros [= <- _]. split; [reflexivity |]. exists []. now rewrite app_nil_r.
  - destruct (make_calls_step json_loads self v_call) as [self1 [u | e]] eqn:Hstep.
    + intros Hloop.
      destruct (make_calls_step_appends _ _ _ _ Hstep) as (Hs1 & a1 & Hc1 & Ha1).
      destruct (IH _ _ _ Hloop) as (Hs2 & a2 & Hc2 & Ha2).
      split; [congruence |].
      exists (a1 ++ a2)%list. split.
      * rewrite Hc2, Hc1. now rewrite app_assoc.
      * apply Forall_app. auto.
    + intros [= <- _]. exact (make_calls_step_appends _ _ _ _ Hstep).
Qed.

(** When every segment decodes to an object or not at all, finalisation
    returns, and appends the objects that have a ["call"] key, in order. *)
Lemma make_calls_loop_objects (segments : list string) :
  forall self : ChatPromptCapture,
    forallb (object_or_invalid json_loads) segments = true ->
    make_calls_loop json_loads self segments
      = (set_calls_list self (calls_list self ++ decoded_calls json_loads segments),
         Returned tt).
Proof.
  induction segments as [| v_call rest IH]; intros self Hobj.
  - cbn [make_calls_loop decoded_calls]. rewrite app_nil_r. now destruct self.
  - cbn [forallb] in Hobj. apply andb_prop in Hobj as (Hv & Hrest).
    cbn [make_calls_loop decoded_calls]. unfold make_calls_step.
    unfold object_or_invalid in Hv.
    destruct (negb (len_str v_call =? 0)).
    + destruct (json_loads v_call) as [[| b | z | f | s | l | d] | | e]; try discriminate.
      * cbn [contains]. destruct (dict_has "call" d).
        -- rewrite IH by assumption. cbn [append_call calls_list set_calls_list].
           now rewrite <- app_assoc.
        -- now rewrite IH.
      * now rewrite IH.
    + now rewrite IH.
Qed.

(** A non-empty segment that decodes to [null], a boolean or a number makes
    the membership test raise, whatever the decoder. *)
Lemma make_calls_step_not_iterable (self : ChatPromptCapture) (v_call : string) (x : PyVal) :
  v_call <> "" ->
  json_loads v_call = Decoded x ->
  match x with
  | PyNone | PyBool _ | PyInt _ | PyFloat _ => True
  | _ => False
  end ->
  make_calls_step json_loads self v_call = (self, Raised TypeError).
Proof.
  intros Hne Hload Hx. unfold make_calls_step.
  destruct v_call as [| c rest]; [contradiction |].
  change (negb (len_str (String c rest) =? 0)) with
    (negb (Z.pos (Pos.of_succ_nat (String.length rest)) =? 0)).
  cbn [Z.eqb negb]. rewrite Hload.
  destruct x; try contradiction; reflexivity.
Qed.

(** When every segment of the buffer decodes to a JSON object or does not
    decode at all, [make_calls_list] returns normally and appends, after the
    calls already there and in the order of the segments, exactly the decoded
    objects that have a ["call"] key; empty segments, undecodable ones and
    objects without the key leave no trace. *)
Lemma make_calls_list_objects (self : ChatPromptCapture) (prompter : OpenAIToolsPrompter)
    (segments : list string) :
  split (capture_content self) (func_call_token prompter) = Returned segments ->
  forallb (object_or_invalid json_loads) segments = true ->
  make_calls_list json_loads self prompter
    = (set_calls_list self (calls_list self ++ decoded_calls json_loads segments),
       Returned tt).
Proof.
  intros Hsplit Hobj. unfold make_calls_list. rewrite Hsplit.
  now apply make_calls_loop_objects.
Qed.

End CaptureFacts.

(** ** The claims on the capture and on the converter *)

(** C9: [reset] always clears the buffer, the two flags and the prefix
    counter; the calls list is kept, unless [reset_calls_list] is set, in
    which case it is emptied. *)
Theorem reset_clears (self : ChatPromptCapture) (reset_calls_list : bool) :
  capture_content (reset self reset_calls_list) = "" /\
  maybe_function_call (reset self reset_calls_list) = false /\
  is_function_call (reset self reset_calls_list) = false /\
  prefix_size (reset self reset_calls_list) = 0 /\
  calls_list (reset self false) = calls_list self /\
  calls_list (reset self true) = [].
Proof.
  repeat split.
Qed.

(** C4: the [arguments] of the record returned for a position of the list
    are [json.dumps] of the call's ["arguments"] when the call has one, and
    the empty str when it has none (or has [null] there). *)
Theorem arguments_of_record (json_dumps : PyVal -> string) (self : ChatPromptCapture)
    (call_id : Z) (mesg : ChatCompletionMessageToolCall) :
  0 <= call_id < num_calls self ->
  to_ChatCompletionMessageToolCall json_dumps self call_id = Returned (Some mesg) ->
  exists d,
    nth_error (calls_list self) (Z.to_nat call_id) = Some (PyDict d) /\
    (forall v, dict_get "arguments" d = Some v -> v <> PyNone ->
               arguments (function mesg) = json_dumps v) /\
    (dict_get "arguments" d = None -> arguments (function mesg) = "") /\
    (dict_get "arguments" d = Some PyNone -> arguments (function mesg) = "").
Proof.
  intros Hi Hret.
  destruct (to_call_inv json_dumps self call_id mesg Hi Hret)
    as (d & call_name & Hnth & Hcall & ->).
  exists d. split; [exact Hnth |]. unfold record_of. cbn [function arguments].
  repeat split.
  - intros v -> Hv. destruct v; try reflexivity. now elim Hv.
  - intros ->. reflexivity.
  - intros ->. reflexivity.
Qed.

(** C5: the [id] of the record returned for position [call_id] is
    ["call_" + name + "_" + str(call_id)], [name] being the call's ["call"];
    it depends on the calls list and the position only, so that converting
    again gives the same id. *)
Theorem id_of_record (json_dumps : PyVal -> string) (self : ChatPromptCapture)
    (call_id : Z) (mesg : ChatCompletionMessageToolCall) :
  0 <= call_id < num_calls self ->
  to_ChatCompletionMessageToolCall json_dumps self call_id = Returned (Some mesg) ->
  (exists d call_name,
     nth_error (calls_list self) (Z.to_nat call_id) = Some (PyDict d) /\
     dict_get "call" d = Some (PyStr call_name) /\
     id mesg = "call_" ++ call_name ++ "_" ++ str call_id) /\
  (forall (json_dumps' : PyVal -> string) (self' : ChatPromptCapture)
          (mesg' : ChatCompletionMessageToolCall),
     calls_list self' = calls_list self ->
     to_ChatCompletionMessageToolCall json_dumps' self' call_id = Returned (Some mesg') ->
     id mesg' = id mesg).
Proof.
  intros Hi Hret.
  destruct (to_call_inv json_dumps self call_id mesg Hi Hret)
    as (d & call_name & Hnth & Hcall & ->).
  split.
  - exists d, call_name. auto.
  - intros json_dumps' self' mesg' Hsame Hret'.
    assert (Hi' : 0 <= call_id < num_calls self') by (unfold num_calls in *; now rewrite Hsame).
    destruct (to_call_inv json_dumps' self' call_id mesg' Hi' Hret')
      as (d' & call_name' & Hnth' & Hcall' & ->).
    rewrite Hsame, Hnth in Hnth'. injection Hnth' as <-.
    rewrite Hcall in Hcall'. injection Hcall' as <-. reflexivity.
Qed.

(** C6: [to_ChoiceDeltaToolCall] answers [None] exactly when
    [to_ChatCompletionMessageToolCall] does, and otherwise the same [id],
    [type] and [function] with [index] equal to the position asked for.  On
    captured calls that are dicts with a str under ["call"], the two list
    converters return, lists as long as the calls list, the delta at each
    position being the record at that position with its position as
    [index]; and whenever one of them returns, so does the other, with these
    lengths and this correspondence. *)
Theorem delta_matches_record (json_dumps : PyVal -> string) (self : ChatPromptCapture)
    (call_id : Z) :
  (to_ChoiceDeltaToolCall json_dumps self call_id = Returned None <->
   to_ChatCompletionMessageToolCall json_dumps self call_id = Returned None) /\
  (forall mesg,
     to_ChatCompletionMessageToolCall json_dumps self call_id = Returned (Some mesg) ->
     to_ChoiceDeltaToolCall json_dumps self call_id
       = Returned (Some {| delta_index := call_id;
                           delta_id := id mesg;
                           delta_type := type mesg;
                           delta_function := function mesg |})) /\
  (forallb well_formed_call (calls_list self) = true ->
   exists records deltas,
     to_ChatCompletionMessageToolCallList json_dumps self = Returned records /\
     to_ChoiceDeltaToolCallList json_dumps self = Returned deltas /\
     List.length records = List.length (calls_list self) /\
     List.length deltas = List.length (calls_list self) /\
     forall k : nat,
       nth_error deltas k
         = option_map (option_map (with_index (Z.of_nat k))) (nth_error records k)) /\
  (forall records,
     to_ChatCompletionMessageToolCallList json_dumps self = Returned records ->
     List.length records = List.length (calls_list self) /\
     exists deltas,
       to_ChoiceDeltaToolCallList json_dumps self = Returned deltas /\
       List.length deltas = List.length (calls_list self) /\
       forall k : nat,
         nth_error deltas k
           = option_map (option_map (with_index (Z.of_nat k))) (nth_error records k)) /\
  (forall deltas,
     to_ChoiceDeltaToolCallList json_dumps self = Returned deltas ->
     exists records,
       to_ChatCompletionMessageToolCallList json_dumps self = Returned records).
Proof.
  assert (Hlen : forall A (l : list A), Z.to_nat (len l) = List.length l)
    by (intros; unfold len; lia).
  assert (Hlists : forall records,
            to_ChatCompletionMessageToolCallList json_dumps self = Returned records ->
            List.length records = List.length (calls_list self) /\
            exists deltas,
              to_ChoiceDeltaToolCallList json_dumps self = Returned deltas /\
              List.length deltas = List.length (calls_list self) /\
              forall k : nat,
                nth_error deltas k
                  = option_map (option_map (with_index (Z.of_nat k)))
                      (nth_error records k)).
  { intros records H.
    unfold to_ChoiceDeltaToolCallList, to_ChatCompletionMessageToolCallList in *.
    rewrite for_range_delta, H. cbn [fmap bind].
    apply for_range_length in H. unfold num_calls in H. rewrite Hlen in H.
    split; [exact H |].
    exists (index_from 0 records). split; [reflexivity |]. split.
    + now rewrite index_from_length.
    + intros k. now rewrite index_from_nth. }
  split; [| split; [| split; [| split]]].
  - rewrite to_delta_as_call.
    destruct (to_ChatCompletionMessageToolCall json_dumps self call_id) as [[m |] | e];
      simpl; split; congruence.
  - intros mesg Hret. rewrite to_delta_as_call, Hret. reflexivity.
  - intros Hwf.
    assert (Hret := call_list_returns json_dumps self Hwf).
    destruct (to_ChatCompletionMessageToolCallList json_dumps self) as [records | e] eqn:E;
      [| discriminate].
    destruct (Hlists records eq_refl) as (Hl & deltas & Hd & Hld & Hnth).
    exists records, deltas. auto.
  - exact Hlists.
  - intros deltas H.
    unfold to_ChoiceDeltaToolCallList, to_ChatCompletionMessageToolCallList in *.
    rewrite for_range_delta in H.
    destruct (for_range (to_ChatCompletionMessageToolCall json_dumps self) 0
                (Z.to_nat (num_calls self))) as [records | e]; [| discriminate].
    now exists records.
Qed.

(** Without the negative indices, the converter answers [None] exactly beyond
    the last call. *)
Lemma to_call_none_iff (json_dumps : PyVal -> string) (self : ChatPromptCapture)
    (call_id : Z) :
  0 <= call_id ->
  (to_ChatCompletionMessageToolCall json_dumps self call_id = Returned None <->
   num_calls self <= call_id).
Proof.
  intros Hpos. split.
  - intros Hret. destruct (Z.le_gt_cases (num_calls self) call_id) as [H | H]; [exact H |].
    now elim (to_call_not_none json_dumps self call_id).
  - apply to_call_beyond.
Qed.

(** C3, at a negative index: with one call in the list, index [-1] is
    answered with the record of the last call, not with [None], and index
    [-2] raises [IndexError]. *)
Theorem negative_index_is_not_none :
  to_ChatCompletionMessageToolCall Json.dumps (Example.capture "" [Example.call_search]) (-1)
    = Returned (Some {| id := "call_search_-1";
                        type := "function";
                        function := {| name := "search"; arguments := "" |} |}) /\
  to_ChatCompletionMessageToolCall Json.dumps (Example.capture "" [Example.call_search]) (-2)
    = Raised IndexError.
Proof.
  split; reflexivity.
Qed.

(** C2, on a payload that is JSON but not an object: the segment [42]
    decodes to an int, ["call" in 42] raises [TypeError], which the [except]
    clause does not catch; the call before it is kept, the one after it is
    never looked at. *)
Theorem make_calls_list_raises_on_number :
  make_calls_list Json.loads (Example.capture "42" []) Example.prompter
    = (Example.capture "42" [], Raised TypeError) /\
  make_calls_list Json.loads
      (Example.capture (Example.text_search ++ "<<CALL>>42<<CALL>>" ++ Example.text_f) [])
      Example.prompter
    = (Example.capture (Example.text_search ++ "<<CALL>>42<<CALL>>" ++ Example.text_f)
         [Example.call_search],
       Raised TypeError).
Proof.
  split; vm_compute; reflexivity.
Qed.

(** C10, on a payload that is a JSON string: ["call" in "call"] is a
    substring test and holds, the str is appended to the calls list, and the
    lookup [call["call"]] of the converter raises [TypeError] at index 0. *)
Theorem string_payload_breaks_name_lookup :
  make_calls_list Json.loads (Example.capture (Example.q "call") []) Example.prompter
    = (Example.capture (Example.q "call") [PyStr "call"], Returned tt) /\
  to_ChatCompletionMessageToolCall Json.dumps
      (Example.capture (Example.q "call") [PyStr "call"]) 0
    = Raised TypeError.
Proof.
  split; vm_compute; reflexivity.
Qed.

(** ** The statements at concrete inputs *)

(** The scenario of the spec with one turn: no text is rendered, the full
    list is not, and the request is left as it was. *)
Lemma inject_prompt_unknown_tool_choice_witness :
  fst (inject_prompt Example.never_same Example.prompter
         (Example.weather_request (MessagesList [Example.user "hi"])))
    = Example.weather_request (MessagesList [Example.user "hi"]) /\
  renderToolsList Example.demo_template (Some "weather") [Example.tool "time"] = None /\
  renderToolsList Example.demo_template (Some "weather") [Example.tool "time"]
    <> Some (render_FUNCTIONS_LIST Example.demo_template None [Example.tool "time"]).
Proof.
  destruct (inject_prompt_unknown_tool_choice Example.never_same Example.prompter
              (Example.weather_request (MessagesList [Example.user "hi"])) "weather")
    as (Hfst & Hrender).
  - reflexivity.
  - discriminate.
  - intros tl E. injection E as <-. repeat constructor. discriminate.
  - split; [exact Hfst |]. exact (Hrender [Example.tool "time"] eq_refl).
Defined.

(** The scenario of the spec without any turn: the choice names no declared
    tool, and the call returns normally, no error being signalled. *)
Lemma unknown_tool_choice_without_error :
  tool_choice (Example.weather_request (MessagesList [])) = Some "weather" /\
  tools (Example.weather_request (MessagesList [])) = Some [Example.tool "time"] /\
  Forall (fun tool => fd_name (tool_function tool) <> "weather") [Example.tool "time"] /\
  inject_prompt Example.never_same Example.prompter (Example.weather_request (MessagesList []))
    = (Example.weather_request (MessagesList []), Returned tt) /\
  ~ (exists e, snd (inject_prompt Example.never_same Example.prompter
                      (Example.weather_request (MessagesList []))) = Raised e).
Proof.
  split; [reflexivity |]. split; [reflexivity |]. split.
  - repeat constructor. discriminate.
  - split; [reflexivity |]. intros (e & H). discriminate H.
Qed.

(** A named tool of the list: its description alone is put in front of the
    first turn, the second turn is untouched. *)
Lemma inject_prompt_modifies_conversation_only_witness :
  inject_prompt Example.never_same Example.prompter
    (Example.two_tools_request (MessagesList [Example.user "hi"; Example.user "there"]))
  = (Example.two_tools_request
       (MessagesList [Example.user "Tools: weather. Use weather. hi"; Example.user "there"]),
     Returned tt).
Proof.
  destruct (inject_prompt_modifies_conversation_only Example.never_same Example.prompter
              (Example.two_tools_request
                 (MessagesList [Example.user "hi"; Example.user "there"])))
    as (_ & _ & H).
  destruct (H "<<CALL>>" [Example.tool "time"; Example.tool "weather"]
              "Tools: weather. Use weather. ")
    as (_ & Hturns & _).
  - reflexivity.
  - reflexivity.
  - discriminate.
  - reflexivity.
  - exact (Hturns (Example.user "hi") [Example.user "there"] "hi" eq_refl eq_refl).
Defined.

Lemma arguments_of_record_witness :
  exists d,
    nth_error [Example.call_search; Example.call_f] 1 = Some (PyDict d) /\
    (forall v, dict_get "arguments" d = Some v -> v <> PyNone ->
               Json.dumps (PyDict [("x", PyInt 1)]) = Json.dumps v) /\
    (dict_get "arguments" d = None -> Json.dumps (PyDict [("x", PyInt 1)]) = "") /\
    (dict_get "arguments" d = Some PyNone -> Json.dumps (PyDict [("x", PyInt 1)]) = "").
Proof.
  apply (arguments_of_record Json.dumps
           (Example.capture "" [Example.call_search; Example.call_f]) 1
           (record_of Json.dumps
              [("call", PyStr "f"); ("arguments", PyDict [("x", PyInt 1)])] "f" 1)).
  - unfold num_calls, len. simpl. lia.
  - reflexivity.
Defined.

Lemma id_of_record_witness :
  exists d call_name,
    nth_error [Example.call_search; Example.call_f] 1 = Some (PyDict d) /\
    dict_get "call" d = Some (PyStr call_name) /\
    "call_f_1" = "call_" ++ call_name ++ "_" ++ str 1.
Proof.
  apply (id_of_record Json.dumps
           (Example.capture "" [Example.call_search; Example.call_f]) 1
           (record_of Json.dumps
              [("call", PyStr "f"); ("arguments", PyDict [("x", PyInt 1)])] "f" 1)).
  - unfold num_calls, len. simpl. lia.
  - reflexivity.
Defined.

Lemma delta_matches_record_witness :
  to_ChoiceDeltaToolCall Json.dumps
      (Example.capture "" [Example.call_search; Example.call_f]) 1
    = Returned (Some {| delta_index := 1;
                        delta_id := "call_f_1";
                        delta_type := "function";
                        delta_function :=
                          {| name := "f";
                             arguments := Json.dumps (PyDict [("x", PyInt 1)]) |} |}) /\
  exists records deltas,
    to_ChatCompletionMessageToolCallList Json.dumps
      (Example.capture "" [Example.call_search; Example.call_f]) = Returned records /\
    to_ChoiceDeltaToolCallList Json.dumps
      (Example.capture "" [Example.call_search; Example.call_f]) = Returned deltas /\
    List.length records = 2%nat /\
    List.length deltas = 2%nat /\
    forall k : nat,
      nth_error deltas k
        = option_map (option_map (with_index (Z.of_nat k))) (nth_error records k).
Proof.
  destruct (delta_matches_record Json.dumps
              (Example.capture "" [Example.call_search; Example.call_f]) 1)
    as (_ & Hsome & Hlists & _).
  split.
  - exact (Hsome (record_of Json.dumps
                    [("call", PyStr "f"); ("arguments", PyDict [("x", PyInt 1)])] "f" 1)
                 eq_refl).
  - exact (Hlists eq_refl).
Defined.

(** The spec's scenario of a malformed segment between two valid ones: the
    two calls are kept in their order, the malformed segment is dropped. *)
Example malformed_segment_dropped :
  make_calls_list Json.loads
      (Example.capture (Example.text_search ++ "<<CALL>>{not json<<CALL>>" ++ Example.text_f) [])
      Example.prompter
    = (Example.capture (Example.text_search ++ "<<CALL>>{not json<<CALL>>" ++ Example.text_f)
         [Example.call_search; Example.call_f],
       Returned tt).
Proof.
  vm_compute. reflexivity.
Qed.

(** * Further properties of the code *)

(** ** Choice of the tool to render *)

Lemma find_tool_split (choice : string) (tools_list : list ChatCompletionToolParam)
    (tool : ChatCompletionToolParam) :
  find_tool choice tools_list = Some tool ->
  exists before after,
    tools_list = (before ++ tool :: after)%list /\
    forallb (fun t => negb (tool_matches choice t)) before = true /\
    tool_matches choice tool = true.
Proof.
  induction tools_list as [| t rest IH]; cbn [find_tool].
  - discriminate.
  - fold (tool_matches choice t).
    destruct (tool_matches choice t) eqn:Hm.
    + intros [= <-]. exists [], rest. auto.
    + intros H. destruct (IH H) as (before & after & -> & Hb & Ht).
      exists (t :: before), after. cbn [forallb app]. rewrite Hm. auto.
Qed.

Lemma find_tool_none_iff (choice : string) (tools_list : list ChatCompletionToolParam) :
  find_tool choice tools_list = None <->
  forallb (fun t => negb (tool_matches choice t)) tools_list = true.
Proof.
  induction tools_list as [| t rest IH]; cbn [find_tool forallb].
  - tauto.
  - fold (tool_matches choice t). destruct (tool_matches choice t); cbn [negb andb].
    + split; discriminate.
    + exact IH.
Qed.

(** When a named choice is rendered, the template receives that choice and a
    single tool: the first tool of the list that has type ["function"] and the
    chosen name.  Tools after it, same name or not, play no part. *)
Theorem renderToolsList_first_match (self : ToolsCallsTemplate) (choice text : string)
    (tools_list : list ChatCompletionToolParam) :
  choice <> "auto" ->
  renderToolsList self (Some choice) tools_list = Some text ->
  exists before tool after,
    tools_list = (before ++ tool :: after)%list /\
    forallb (fun t => negb (tool_matches choice t)) before = true /\
    tool_type tool = "function" /\
    fd_name (tool_function tool) = choice /\
    text = render_FUNCTIONS_LIST self (Some choice) [tool].
Proof.
  intros Hauto. unfold renderToolsList.
  destruct (String.eqb_spec choice "auto") as [E | _]; [contradiction |].
  destruct (find_tool choice tools_list) as [tool |] eqn:Hfind; [| discriminate].
  intros [= <-].
  destruct (find_tool_split _ _ _ Hfind) as (before & after & Hl & Hb & Ht).
  exists before, tool, after.
  unfold tool_matches in Ht. apply andb_prop in Ht as (Ht & Hn).
  apply String.eqb_eq in Ht, Hn. auto.
Qed.

(** [renderToolsList] answers [None] exactly for a choice other than ["auto"]
    that no tool of type ["function"] bears: a tool of another type with the
    chosen name does not count. *)
Theorem renderToolsList_none_iff (self : ToolsCallsTemplate) (tool_choice : option string)
    (tools_list : list ChatCompletionToolParam) :
  renderToolsList self tool_choice tools_list = None <->
  exists choice,
    tool_choice = Some choice /\
    choice <> "auto" /\
    forallb (fun t => negb (tool_matches choice t)) tools_list = true.
Proof.
  unfold renderToolsList. destruct tool_choice as [c |].
  - destruct (String.eqb_spec c "auto") as [-> | Hc].
    + split; [discriminate |]. intros (choice & [= <-] & Hn & _). now elim Hn.
    + destruct (find_tool c tools_list) as [tool |] eqn:Hfind.
      * split; [discriminate |]. intros (choice & [= <-] & _ & Hall).
        apply find_tool_none_iff in Hall. congruence.
      * split; [| reflexivity]. intros _. exists c.
        apply find_tool_none_iff in Hfind. auto.
  - split; [discriminate |]. intros (choice & [=] & _).
Qed.

(** ** Injection *)

(** The identity test [is not "auto"] of [inject_prompt] has no effect:
    whatever it answers, the call does the same. *)
Theorem inject_prompt_identity_irrelevant
    (same_object same_object' : string -> string -> bool)
    (self : OpenAIToolsPrompter) (request : ChatCompletionRequest) :
  inject_prompt same_object self request = inject_prompt same_object' self request.
Proof.
  destruct (call_token_str self) as [token |] eqn:Htoken.
  2:{ now rewrite !inject_prompt_skip by auto. }
  destruct (tools request) as [[| tool rest] |] eqn:Htools.
  - now rewrite !inject_prompt_skip by auto.
  - now rewrite !(inject_prompt_unfold _ self request token (tool :: rest))
      by (auto; discriminate).
  - now rewrite !inject_prompt_skip by auto.
Qed.

(** [inject_prompt] fails in one way only, with [TypeError], and a failed
    call has not modified the request.  It fails exactly when the token is
    defined, the tools list is not empty, and either no text is rendered
    while the conversation is a raw prompt or has a turn, or the content of
    the first turn is [None]. *)
Theorem inject_prompt_failure (same_object : string -> string -> bool)
    (self : OpenAIToolsPrompter) (request : ChatCompletionRequest) :
  (forall e, snd (inject_prompt same_object self request) = Raised e ->
             e = TypeError /\ fst (inject_prompt same_object self request) = request) /\
  (snd (inject_prompt same_object self request) = Raised TypeError <->
   injection_fails self request).
Proof.
  assert (Hskip : forall request',
            inject_prompt same_object self request = (request', Returned tt) ->
            ~ injection_fails self request ->
            (forall e, snd (inject_prompt same_object self request) = Raised e ->
                       e = TypeError /\
                       fst (inject_prompt same_object self request) = request) /\
            (snd (inject_prompt same_object self request) = Raised TypeError <->
             injection_fails self request)).
  { intros request' E Hn. rewrite E. simpl. split; [discriminate |].
    split; [discriminate | intros H; now elim Hn]. }
  unfold injection_fails in *.
  destruct (call_token_str self) as [token |] eqn:Htoken.
  2:{ eapply Hskip.
      - apply inject_prompt_skip. auto.
      - intros (Hn & _). now elim Hn. }
  destruct (tools request) as [[| tool rest] |] eqn:Htools.
  - eapply Hskip.
    + apply inject_prompt_skip. auto.
    + intros (_ & tl & [= <-] & Hn & _). now elim Hn.
  - assert (E := inject_prompt_unfold same_object self request token (tool :: rest)
                   Htoken Htools ltac:(discriminate)).
    cbv zeta in E.
    destruct (renderToolsList (template self) (tool_choice request) (tool :: rest))
      as [text |] eqn:Hrender;
      destruct (messages request) as [prompt | [| first turns]] eqn:Hm; simpl in E.
    + eapply Hskip; [exact E |].
      intros (_ & tl & [= <-] & _ & [(Hr & _) | (f & r & [=] & _)]). congruence.
    + eapply Hskip; [exact E |].
      intros (_ & tl & [= <-] & _ & [(Hr & _) | (f & r & [=] & _)]). congruence.
    + destruct (content first) as [c |] eqn:Hc; simpl in E.
      * eapply Hskip; [exact E |].
        intros (_ & tl & [= <-] & _ & [(Hr & _) | (f & r & [= <- _] & Hf)]); congruence.
      * rewrite E. simpl. split; [intros e [= <-]; auto |].
        split; [intros _ | reflexivity].
        split; [discriminate |]. exists (tool :: rest).
        split; [reflexivity |]. split; [discriminate |].
        right. now exists first, turns.
    + rewrite E. simpl. split; [intros e [= <-]; auto |].
      split; [intros _ | reflexivity].
      split; [discriminate |]. exists (tool :: rest).
      split; [reflexivity |]. split; [discriminate |].
      left. split; [assumption | discriminate].
    + eapply Hskip; [exact E |].
      intros (_ & tl & [= <-] & _ & [(_ & Hn) | (f & r & [=] & _)]). now elim Hn.
    + rewrite E. simpl. split; [intros e [= <-]; auto |].
      split; [intros _ | reflexivity].
      split; [discriminate |]. exists (tool :: rest).
      split; [reflexivity |]. split; [discriminate |].
      left. split; [assumption | discriminate].
  - eapply Hskip.
    + apply inject_prompt_skip. auto.
    + intros (_ & tl & [=] & _).
Qed.

(** Whatever the request, [inject_prompt] keeps the kind of the
    conversation: a raw prompt stays one and still ends with the former
    prompt; a list of turns keeps its length, the roles and every turn after
    the first, and the content of the first turn is the former one or ends
    with it. *)
Theorem inject_prompt_keeps_conversation (same_object : string -> string -> bool)
    (self : OpenAIToolsPrompter) (request : ChatCompletionRequest) :
  conversation_kept (messages request)
    (messages (fst (inject_prompt same_object self request))).
Proof.
  assert (Hsame : forall m, conversation_kept m m).
  { intros [prompt | [| first rest]].
    - now exists "".
    - simpl. auto.
    - simpl. auto. }
  destruct (call_token_str self) as [token |] eqn:Htoken.
  2:{ rewrite inject_prompt_skip by auto. apply Hsame. }
  destruct (tools request) as [[| tool rest] |] eqn:Htools.
  - rewrite inject_prompt_skip by auto. apply Hsame.
  - rewrite (inject_prompt_unfold same_object self request token (tool :: rest))
      by (auto; discriminate).
    cbv zeta.
    destruct (renderToolsList (template self) (tool_choice request) (tool :: rest))
      as [text |].
    + destruct (messages request) as [prompt | [| first turns]] eqn:Hm.
      * simpl. now exists text.
      * cbn [fst]. rewrite Hm. apply Hsame.
      * destruct (content first) as [c |] eqn:Hc.
        -- simpl. split; [reflexivity |]. split; [reflexivity |]. split; [reflexivity |].
           right. exists c, (text ++ c).
           split; [exact Hc |]. split; [reflexivity |]. now exists text.
        -- cbn [add_str fst]. rewrite Hm. apply Hsame.
    + destruct (messages request) as [prompt | [| first turns]] eqn:Hm;
        cbn [add_str fst]; rewrite Hm; apply Hsame.
  - rewrite inject_prompt_skip by auto. apply Hsame.
Qed.

(** [inject_prompt] is not idempotent: nothing marks a request as already
    injected, and a second call puts the rendered text in front once more. *)
Theorem inject_prompt_twice (same_object : string -> string -> bool)
    (self : OpenAIToolsPrompter) (request : ChatCompletionRequest)
    (token text : string) (request_tools : list ChatCompletionToolParam) :
  call_token_str self = Some token ->
  tools request = Some request_tools ->
  request_tools <> [] ->
  renderToolsList (template self) (tool_choice request) request_tools = Some text ->
  (forall prompt,
     messages request = MessagesStr prompt ->
     inject_prompt same_object self (fst (inject_prompt same_object self request))
       = (set_messages request (MessagesStr (text ++ text ++ prompt)), Returned tt)) /\
  (forall first rest text0,
     messages request = MessagesList (first :: rest) ->
     content first = Some text0 ->
     inject_prompt same_object self (fst (inject_prompt same_object self request))
       = (set_messages request
            (MessagesList (set_content first (text ++ text ++ text0) :: rest)),
          Returned tt)).
Proof.
  intros Htoken Htools Hne Hrender.
  assert (E := inject_prompt_unfold same_object self request token request_tools
                 Htoken Htools Hne).
  rewrite Hrender in E. cbv zeta in E.
  split.
  - intros prompt Hm. rewrite Hm in E. simpl in E. rewrite E. cbn [fst].
    rewrite (inject_prompt_unfold same_object self _ token request_tools Htoken)
      by assumption.
    cbn [set_messages tool_choice messages]. rewrite Hrender. reflexivity.
  - intros first rest text0 Hm Hc. rewrite Hm, Hc in E. simpl in E. rewrite E. cbn [fst].
    rewrite (inject_prompt_unfold same_object self _ token request_tools Htoken)
      by assumption.
    cbn [set_messages tool_choice messages]. rewrite Hrender. reflexivity.
Qed.

(** ** Construction of the prompter *)

(** The constructor fails exactly on an empty token, with [IndexError].  A
    prompter it returns keeps the template and its token; a defined token is
    not empty, [call_token_pre] is its first character and
    [func_call_token_size] its length, at least 1; with an undefined token
    [call_token_pre] is unset and [func_call_token_size] raises. *)
Theorem new_OpenAIToolsPrompter_token (t : ToolsCallsTemplate) :
  (forall e, new_OpenAIToolsPrompter t = Raised e <->
             e = IndexError /\ render_CALL_TOKEN t = Some "") /\
  (forall self,
     new_OpenAIToolsPrompter t = Returned self ->
     template self = t /\
     call_token_str self = render_CALL_TOKEN t /\
     call_token_str self <> Some "" /\
     (forall token,
        call_token_str self = Some token ->
        exists c rest,
          token = String c rest /\
          call_token_pre self = Some (String c "") /\
          func_call_token_size self = Returned (1 + len_str rest)) /\
     (call_token_str self = None ->
      call_token_pre self = None /\ func_call_token_size self = Raised TypeError)).
Proof.
  unfold new_OpenAIToolsPrompter, get_func_call_token.
  destruct (render_CALL_TOKEN t) as [[| c rest] |]; split.
  - intros e. split; [intros [= <-]; auto | intros (-> & _); reflexivity].
  - discriminate.
  - intros e. split; [discriminate | intros (_ & [=])].
  - intros self [= <-]. cbn [template call_token_str call_token_pre].
    repeat split; try discriminate.
    intros token [= <-]. exists c, rest. repeat split.
    unfold func_call_token_size, len_str. cbn [call_token_str String.length].
    f_equal. lia.
  - intros e. split; [discriminate | intros (_ & [=])].
  - intros self [= <-]. cbn [template call_token_str call_token_pre].
    repeat split; try discriminate.
Qed.

(** ** Finalisation of the capture *)

Section FinalisationFacts.

Variable json_loads : string -> Loaded.

(** An exception of the loop comes from a non-empty segment: the decoder
    raised it, or the membership test raised [TypeError] on the decoded
    value. *)
Lemma make_calls_step_raise (self self' : ChatPromptCapture) (v_call : string) (e : PyExn) :
  make_calls_step json_loads self v_call = (self', Raised e) ->
  v_call <> "" /\
  (json_loads v_call = LoadRaised e \/
   exists call,
     json_loads v_call = Decoded call /\
     contains "call" call = Raised TypeError /\
     e = TypeError).
Proof.
  unfold make_calls_step.
  destruct v_call as [| c rest]; [discriminate |].
  destruct (negb (len_str (String c rest) =? 0)); [| discriminate].
  intros H. split; [discriminate |]. revert H.
  destruct (json_loads (String c rest)) as [[| b | z | f | s | l | d] | | e'];
    cbn [contains]; try discriminate.
  - intros [= _ <-]. right. now exists PyNone.
  - intros [= _ <-]. right. now exists (PyBool b).
  - intros [= _ <-]. right. now exists (PyInt z).
  - intros [= _ <-]. right. now exists (PyFloat f).
  - destruct (str_contains "call" s); discriminate.
  - destruct (existsb (eq_str "call") l); discriminate.
  - destruct (dict_has "call" d); discriminate.
  - intros [= _ <-]. now left.
Qed.

Lemma make_calls_loop_raise (segments : list string) :
  forall (self self' : ChatPromptCapture) (e : PyExn),
    make_calls_loop json_loads self segments = (self', Raised e) ->
    exists segment,
      In segment segments /\
      segment <> "" /\
      (json_loads segment = LoadRaised e \/
       exists call,
         json_loads segment = Decoded call /\
         contains "call" call = Raised TypeError /\
         e = TypeError).
Proof.
  induction segments as [| v_call rest IH]; intros self self' e; cbn [make_calls_loop].
  - discriminate.
  - destruct (make_calls_step json_loads self v_call) as [self1 [u | e1]] eqn:Hstep.
    + intros Hloop. destruct (IH _ _ _ Hloop) as (segment & Hin & H).
      exists segment. split; [now right | exact H].
    + intros [= _ <-]. exists v_call.
      destruct (make_calls_step_raise _ _ _ _ Hstep) as (Hne & H).
      split; [now left | auto].
Qed.

Lemma new_prompter_token_not_empty (t : ToolsCallsTemplate) (prompter : OpenAIToolsPrompter) :
  new_OpenAIToolsPrompter t = Returned prompter ->
  call_token_str prompter <> Some "".
Proof.
  unfold new_OpenAIToolsPrompter.
  destruct (get_func_call_token t) as [[| c rest] |]; try discriminate;
    intros [= <-]; discriminate.
Qed.

Lemma split_returns (buffer : string) (sep : option string) :
  sep <> Some "" -> exists segments, split buffer sep = Returned segments.
Proof.
  intros Hne. destruct sep as [[| c rest] |]; cbn [split].
  - now elim Hne.
  - eauto.
  - eauto.
Qed.

(** Whatever the buffer holds and however the call ends, [make_calls_list]
    leaves the buffer, the flags and the prefix counter as they were, and the
    calls list only grows at its end, by values [v] for which ["call" in v]
    holds: no call already captured is removed, changed or moved. *)
Theorem make_calls_list_appends (self : ChatPromptCapture) (prompter : OpenAIToolsPrompter) :
  scan_state (fst (make_calls_list json_loads self prompter)) = scan_state self /\
  exists added,
    calls_list (fst (make_calls_list json_loads self prompter))
      = (calls_list self ++ added)%list /\
    Forall has_call added.
Proof.
  unfold make_calls_list.
  destruct (split (capture_content self) (func_call_token prompter)) as [segments | e].
  - destruct (make_calls_loop json_loads self segments) as [self' out] eqn:Hloop.
    exact (make_calls_loop_appends json_loads segments self self' out Hloop).
  - split; [reflexivity |]. exists []. cbn [fst]. now rewrite app_nil_r.
Qed.

(** [make_calls_list] fails in three ways only.  With the empty str as
    token, [split] raises [ValueError] and the capture is left as it was.
    Otherwise an exception comes from a non-empty segment of the buffer:
    either [json.loads] raised it on that segment, an exception other than
    [JSONDecodeError], or the segment decoded and the membership test raised
    [TypeError] on the value. *)
Theorem make_calls_list_errors (self : ChatPromptCapture) (prompter : OpenAIToolsPrompter) :
  (call_token_str prompter = Some "" ->
   make_calls_list json_loads self prompter = (self, Raised ValueError)) /\
  (forall e,
     snd (make_calls_list json_loads self prompter) = Raised e ->
     (call_token_str prompter = Some "" /\ e = ValueError) \/
     (exists segments segment,
        split (capture_content self) (func_call_token prompter) = Returned segments /\
        In segment segments /\
        segment <> "" /\
        (json_loads segment = LoadRaised e \/
         exists call,
           json_loads segment = Decoded call /\
           contains "call" call = Raised TypeError /\
           e = TypeError))).
Proof.
  unfold make_calls_list, func_call_token. split.
  - intros ->. reflexivity.
  - intros e.
    destruct (call_token_str prompter) as [[| c rest] |]; cbn [split].
    + intros [= <-]. now left.
    + destruct (make_calls_loop json_loads self _) as [self' [u | e']] eqn:Hloop;
        cbn [snd]; [discriminate |].
      intros [= <-]. right.
      destruct (make_calls_loop_raise _ _ _ _ Hloop) as (segment & H).
      eexists. exists segment. split; [reflexivity | exact H].
    + destruct (make_calls_loop json_loads self _) as [self' [u | e']] eqn:Hloop;
        cbn [snd]; [discriminate |].
      intros [= <-]. right.
      destruct (make_calls_loop_raise _ _ _ _ Hloop) as (segment & H).
      eexists. exists segment. split; [reflexivity | exact H].
Qed.

(** With a prompter that its constructor returned, the segmentation of the
    buffer cannot fail, the constructor having rejected the empty token: an
    exception of [make_calls_list] then always comes from a non-empty
    segment, raised by [json.loads] or, as [TypeError], by the membership
    test on the decoded value. *)
Theorem constructed_prompter_splits (t : ToolsCallsTemplate) (prompter : OpenAIToolsPrompter)
    (self : ChatPromptCapture) :
  new_OpenAIToolsPrompter t = Returned prompter ->
  exists segments,
    split (capture_content self) (func_call_token prompter) = Returned segments /\
    forall e,
      snd (make_calls_list json_loads self prompter) = Raised e ->
      exists segment,
        In segment segments /\
        segment <> "" /\
        (json_loads segment = LoadRaised e \/
         exists call,
           json_loads segment = Decoded call /\
           contains "call" call = Raised TypeError /\
           e = TypeError).
Proof.
  intros Hnew.
  destruct (split_returns (capture_content self) (func_call_token prompter)
              (new_prompter_token_not_empty t prompter Hnew)) as (segments & Hsplit).
  exists segments. split; [exact Hsplit |].
  intros e. unfold make_calls_list. rewrite Hsplit.
  destruct (make_calls_loop json_loads self segments) as [self' [u | e']] eqn:Hloop;
    cbn [snd]; [discriminate |].
  intros [= <-]. exact (make_calls_loop_raise _ _ _ _ Hloop).
Qed.

(** On an empty buffer, and so right after [reset], [make_calls_list] finds
    no call and changes nothing (the token not being the empty str). *)
Theorem make_calls_list_empty_buffer (self : ChatPromptCapture)
    (prompter : OpenAIToolsPrompter) :
  call_token_str prompter <> Some "" ->
  (capture_content self = "" ->
   make_calls_list json_loads self prompter = (self, Returned tt)) /\
  (forall reset_calls_list,
     make_calls_list json_loads (reset self reset_calls_list) prompter
       = (reset self reset_calls_list, Returned tt)).
Proof.
  intros Hne.
  assert (H : forall c, capture_content c = "" ->
            make_calls_list json_loads c prompter = (c, Returned tt)).
  { intros c Hc. unfold make_calls_list, func_call_token. rewrite Hc.
    destruct (call_token_str prompter) as [[| ch rest] |].
    - now elim Hne.
    - reflexivity.
    - reflexivity. }
  split; [apply H |]. intros b. now apply H.
Qed.

End FinalisationFacts.

(** ** Segmentation of the buffer *)

Lemma append_empty_r (s : string) : s ++ "" = s.
Proof.
  induction s as [| c s IH]; simpl; [reflexivity | now rewrite IH].
Qed.

Lemma append_assoc (a b c : string) : (a ++ b) ++ c = a ++ (b ++ c).
Proof.
  induction a as [| x a IH]; simpl; [reflexivity | now rewrite IH].
Qed.

Lemma prefix_append (p s : string) :
  String.prefix p s = true -> exists rest, s = p ++ rest.
Proof.
  revert s. induction p as [| c p IH]; intros s.
  - intros _. now exists s.
  - destruct s as [| c' s]; simpl; [discriminate |].
    destruct (Ascii.ascii_dec c c') as [<- | _]; [| discriminate].
    intros H. destruct (IH s H) as (rest & ->). now exists rest.
Qed.

Lemma split_on_not_nil (sep : string) (s : string) :
  forall (skip : nat) (cur : string), split_on sep skip cur s <> [].
Proof.
  induction s as [| c s IH]; intros skip cur; cbn [split_on].
  - discriminate.
  - destruct skip as [| k]; [| apply IH].
    destruct (String.prefix sep (String c s)); [intros H; discriminate H | apply IH].
Qed.

Lemma concat_cons (sep x : string) (l : list string) :
  l <> [] -> String.concat sep (x :: l) = x ++ sep ++ String.concat sep l.
Proof.
  destruct l; [contradiction | reflexivity].
Qed.

(** Joining what [split_on] returns gives back the current segment and the
    text that is left once the [skip] characters are passed. *)
Lemma split_on_concat (sep : string) (s : string) :
  sep <> "" ->
  forall (skip : nat) (cur skipped rest : string),
    s = skipped ++ rest ->
    String.length skipped = skip ->
    String.concat sep (split_on sep skip cur s) = cur ++ rest.
Proof.
  intros Hsep. induction s as [| c s IH]; intros skip cur skipped rest Hs Hlen.
  - destruct skipped; [| discriminate]. simpl in Hs. subst rest.
    simpl. now rewrite append_empty_r.
  - cbn [split_on]. destruct skip as [| k].
    + destruct skipped; [| discriminate]. simpl in Hs. subst rest.
      destruct (String.prefix sep (String c s)) eqn:Hp.
      * rewrite concat_cons by apply split_on_not_nil.
        destruct (prefix_append _ _ Hp) as (rest' & Hrest).
        destruct sep as [| c' sep']; [contradiction |].
        simpl in Hrest. injection Hrest as <- ->.
        rewrite (IH (Nat.pred (String.length (String c sep'))) "" sep' rest');
          reflexivity.
      * rewrite (IH O (cur ++ String c "") "" s); try reflexivity.
        now rewrite append_assoc.
    + destruct skipped as [| c' skipped']; [discriminate |].
      simpl in Hs. injection Hs as _ ->. simpl in Hlen. injection Hlen as Hlen.
      now apply (IH k cur skipped' rest).
Qed.

(** The segments [make_calls_list] examines, joined by the token, are the
    buffer: the segmentation loses and adds no character, and there is
    always at least one segment. *)
Theorem segments_rebuild_buffer (buffer token : string) (segments : list string) :
  split buffer (Some token) = Returned segments ->
  String.concat token segments = buffer /\ segments <> [].
Proof.
  unfold split. destruct token as [| c token]; [discriminate |].
  intros [= <-]. split.
  - rewrite (split_on_concat (String c token) buffer ltac:(discriminate) O "" "" buffer);
      reflexivity.
  - apply split_on_not_nil.
Qed.

(** ** The converter at any index *)

Section ConverterFacts.

Variable json_dumps : PyVal -> string.

Lemma to_call_unfold (self : ChatPromptCapture) (call_id : Z) :
  to_ChatCompletionMessageToolCall json_dumps self call_id =
    if negb (len (calls_list self) =? 0) && (call_id <? len (calls_list self))
    then call <- list_getitem (calls_list self) call_id ;;
         convert_call json_dumps call call_id
    else Returned None.
Proof.
  unfold to_ChatCompletionMessageToolCall.
  destruct (negb (len (calls_list self) =? 0) && (call_id <? len (calls_list self)));
    [| reflexivity].
  destruct (list_getitem (calls_list self) call_id) as [call | e]; [| reflexivity].
  cbn [bind]. unfold convert_call.
  destruct call as [| b | z | f | s | l | d]; try reflexivity.
  - cbn [contains bind]. destruct (str_contains "arguments" s); reflexivity.
  - cbn [contains bind]. destruct (existsb (eq_str "arguments") l); reflexivity.
  - cbn [contains bind getitem]. unfold dict_has, record_of.
    destruct (dict_get "arguments" d) as [v |]; cbn [bind];
      destruct (dict_get "call" d) as [[| b | z | f | call_name | l | d'] |];
      reflexivity.
Qed.

Lemma list_getitem_cases {A : Type} (l : list A) (i : Z) :
  (exists a,
     list_getitem l i = Returned a /\
     nth_error l (Z.to_nat (if i <? 0 then len l + i else i)) = Some a /\
     - len l <= i < len l) \/
  (list_getitem l i = Raised IndexError /\ (i < - len l \/ len l <= i)).
Proof.
  unfold list_getitem.
  destruct (Z.ltb_spec i 0) as [Hneg | Hpos].
  - destruct (Z.leb_spec 0 (len l + i)) as [Hlo | Hlo]; cbn [andb].
    + destruct (Z.ltb_spec (len l + i) (len l)) as [Hhi | Hhi]; [| lia].
      destruct (nth_error l (Z.to_nat (len l + i))) as [a |] eqn:E.
      * left. exists a. repeat split; lia.
      * apply nth_error_None in E. unfold len in *. lia.
    + right. split; [reflexivity | lia].
  - destruct (Z.leb_spec 0 i) as [_ | Hlo]; [| lia]. cbn [andb].
    destruct (Z.ltb_spec i (len l)) as [Hhi | Hhi].
    + destruct (nth_error l (Z.to_nat i)) as [a |] eqn:E.
      * left. exists a. repeat split; lia.
      * apply nth_error_None in E. unfold len in *. lia.
    + right. split; [reflexivity | lia].
Qed.

Lemma convert_call_outcomes (call : PyVal) (call_id : Z) :
  (exists mesg, convert_call json_dumps call call_id = Returned (Some mesg) /\
                well_formed_call call = true) \/
  (convert_call json_dumps call call_id = Raised TypeError /\
   well_formed_call call = false) \/
  (convert_call json_dumps call call_id = Raised KeyError /\
   exists d, call = PyDict d /\ dict_get "call" d = None).
Proof.
  unfold convert_call, well_formed_call.
  destruct call as [| b | z | f | s | l | d]; auto.
  destruct (dict_get "call" d) as [[| b | z | f | call_name | l | d'] |] eqn:E; auto.
  - left. eexists. eauto.
  - right. right. split; [reflexivity |]. now exists d.
Qed.

Lemma convert_call_payload (call : PyVal) (i j : Z) :
  fmap payload (convert_call json_dumps call i)
    = fmap payload (convert_call json_dumps call j).
Proof.
  unfold convert_call.
  destruct call as [| b | z | f | s | l | d]; try reflexivity.
  destruct (dict_get "call" d) as [[| b | z | f | call_name | l | d'] |]; reflexivity.
Qed.

Lemma guard_true_iff (self : ChatPromptCapture) (call_id : Z) :
  negb (len (calls_list self) =? 0) && (call_id <? len (calls_list self)) = true <->
  calls_list self <> [] /\ call_id < num_calls self.
Proof.
  unfold num_calls. rewrite andb_true_iff, negb_true_iff, Z.eqb_neq, Z.ltb_lt.
  split; intros (H1 & H2); split; try assumption.
  - intros E. apply H1. now rewrite E.
  - destruct (calls_list self); [contradiction | discriminate].
Qed.

(** For every integer index: the converter answers [None] exactly when the
    calls list is empty or the index is at or beyond its length, and raises
    [IndexError] exactly when the list is not empty and the index is below
    [-len(calls_list)]. *)
Theorem index_outcomes (self : ChatPromptCapture) (call_id : Z) :
  (to_ChatCompletionMessageToolCall json_dumps self call_id = Returned None <->
   calls_list self = [] \/ num_calls self <= call_id) /\
  (to_ChatCompletionMessageToolCall json_dumps self call_id = Raised IndexError <->
   calls_list self <> [] /\ call_id < - num_calls self).
Proof.
  rewrite to_call_unfold.
  destruct (negb (len (calls_list self) =? 0) && (call_id <? len (calls_list self)))
    eqn:Hguard.
  - apply guard_true_iff in Hguard as (Hne & Hlt).
    destruct (list_getitem_cases (calls_list self) call_id)
      as [(call & -> & _ & Hrange) | (-> & Hrange)]; cbn [bind].
    + fold (num_calls self) in Hrange.
      destruct (convert_call_outcomes call call_id)
        as [(mesg & -> & _) | [(-> & _) | (-> & _)]];
        (split; split; [discriminate | intros H | discriminate | intros H]);
        try (destruct H as [H | H]; [contradiction | lia]);
        try (destruct H as (_ & H); lia).
    + fold (num_calls self) in Hrange.
      split; split.
      * discriminate.
      * intros [H | H]; [contradiction | lia].
      * intros _. split; [assumption | lia].
      * reflexivity.
  - split; split.
    + intros _. destruct (calls_list self) as [| c l] eqn:E; [now left |].
      right. unfold num_calls. rewrite <- E in *.
      destruct (Z.ltb_spec call_id (len (calls_list self))) as [Hlt | Hge]; [| exact Hge].
      rewrite E in Hguard. discriminate Hguard.
    + reflexivity.
    + discriminate.
    + intros (Hne & Hlt).
      assert (G : negb (len (calls_list self) =? 0)
                  && (call_id <? len (calls_list self)) = true).
      { apply guard_true_iff. split; [assumption |]. unfold num_calls, len in *. lia. }
      congruence.
Qed.

(** A negative index within [-len(calls_list) <= call_id < 0] is served as
    Python's list indexing reads it, from the end: the outcome has the
    [type] and [function] of the outcome at [len(calls_list) + call_id]. *)
Theorem negative_index_from_end (self : ChatPromptCapture) (call_id : Z) :
  - num_calls self <= call_id < 0 ->
  fmap payload (to_ChatCompletionMessageToolCall json_dumps self call_id)
    = fmap payload
        (to_ChatCompletionMessageToolCall json_dumps self (num_calls self + call_id)).
Proof.
  intros Hi. rewrite !to_call_unfold.
  assert (Hne : calls_list self <> []).
  { intros E. unfold num_calls in Hi. rewrite E in Hi. simpl in Hi. lia. }
  assert (G1 : negb (len (calls_list self) =? 0)
               && (call_id <? len (calls_list self)) = true).
  { apply guard_true_iff. split; [assumption | lia]. }
  assert (G2 : negb (len (calls_list self) =? 0)
               && (num_calls self + call_id <? len (calls_list self)) = true).
  { apply guard_true_iff. split; [assumption | lia]. }
  rewrite G1, G2.
  destruct (list_getitem_cases (calls_list self) call_id)
    as [(call & -> & Hnth & _) | (_ & Hrange)];
    [| fold (num_calls self) in Hrange; lia].
  destruct (list_getitem_cases (calls_list self) (num_calls self + call_id))
    as [(call' & -> & Hnth' & _) | (_ & Hrange)];
    [| fold (num_calls self) in Hrange; lia].
  destruct (Z.ltb_spec call_id 0) as [_ | H]; [| lia].
  destruct (Z.ltb_spec (num_calls self + call_id) 0) as [H | _]; [lia |].
  fold (num_calls self) in Hnth. rewrite Hnth in Hnth'. injection Hnth' as <-.
  cbn [bind]. apply convert_call_payload.
Qed.

End ConverterFacts.

(** ** The ids of the records *)

Lemma str_inj (a b : Z) : str a = str b -> a = b.
Proof.
  assert (Hparse : forall z, NilZero.int_of_string (str z) = Some (Z.to_int z)).
  { intros z. unfold str. apply NilZero.isi.
    - destruct z; simpl; try discriminate.
      intros [= E]. now apply (DecimalPos.Unsigned.to_uint_nonnil p).
    - destruct z; simpl; try discriminate.
      intros [= E]. now apply (DecimalPos.Unsigned.to_uint_nonnil p). }
  intros E. apply DecimalZ.to_int_inj.
  assert (H := Hparse a). rewrite E, Hparse in H. now injection H.
Qed.

Lemma underscore_cons (c : ascii) (s : string) :
  str_contains "_" (String c s)
    = (if Ascii.ascii_dec "_" c then true else false) || str_contains "_" s.
Proof.
  cbn [str_contains String.prefix].
  destruct (Ascii.ascii_dec "_" c); [| reflexivity].
  now destruct s.
Qed.

Lemma uint_no_underscore (d : Decimal.uint) :
  str_contains "_" (NilEmpty.string_of_uint d) = false.
Proof.
  induction d; cbn [NilEmpty.string_of_uint];
    try reflexivity; rewrite underscore_cons, IHd; reflexivity.
Qed.

Lemma str_no_underscore (z : Z) : str_contains "_" (str z) = false.
Proof.
  unfold str, NilZero.string_of_int, NilZero.string_of_uint.
  destruct (Z.to_int z) as [d | d]; destruct d; try reflexivity;
    try rewrite underscore_cons; try apply uint_no_underscore;
    cbn [orb Ascii.ascii_dec]; try apply uint_no_underscore.
Qed.

Lemma underscore_found (a x : string) : str_contains "_" (a ++ String "_" x) = true.
Proof.
  induction a as [| c a IH]; cbn [append]; rewrite underscore_cons.
  - reflexivity.
  - rewrite IH. apply orb_true_r.
Qed.

(** The text after the last underscore determines the cut. *)
Lemma underscore_split (a b x y : string) :
  str_contains "_" x = false ->
  str_contains "_" y = false ->
  a ++ String "_" x = b ++ String "_" y ->
  a = b /\ x = y.
Proof.
  intros Hx Hy. revert b. induction a as [| c a IH]; intros [| c' b]; simpl.
  - intros [= ->]. auto.
  - intros [= <- ->]. rewrite underscore_found in Hx. discriminate.
  - intros [= -> <-]. rewrite underscore_found in Hy. discriminate.
  - intros [= <- E]. destruct (IH b E) as (-> & ->). auto.
Qed.

Section IdFacts.

Variable json_dumps : PyVal -> string.

(** A record returned at any index, negative ones included, is built from a
    well-formed call of the list, with that index in its id. *)
Lemma to_call_record (self : ChatPromptCapture) (call_id : Z)
    (mesg : ChatCompletionMessageToolCall) :
  to_ChatCompletionMessageToolCall json_dumps self call_id = Returned (Some mesg) ->
  exists d call_name,
    In (PyDict d) (calls_list self) /\
    dict_get "call" d = Some (PyStr call_name) /\
    mesg = record_of json_dumps d call_name call_id.
Proof.
  rewrite to_call_unfold.
  destruct (negb (len (calls_list self) =? 0) && (call_id <? len (calls_list self)));
    [| discriminate].
  destruct (list_getitem_cases (calls_list self) call_id)
    as [(call & -> & Hnth & _) | (-> & _)]; [| discriminate].
  cbn [bind]. unfold convert_call.
  destruct call as [| b | z | f | s | l | d]; try discriminate.
  destruct (dict_get "call" d) as [[| b | z | f | call_name | l | d'] |] eqn:Hcall;
    try discriminate.
  intros [= <-]. exists d, call_name. split; [| auto].
  exact (nth_error_In _ _ Hnth).
Qed.

End IdFacts.

(** Two records with the same id were converted at the same index and bear
    the same name, whatever the captures they come from: within a capture,
    the ids of the records of different positions differ. *)
Theorem ids_determine_index (json_dumps json_dumps' : PyVal -> string)
    (self self' : ChatPromptCapture) (i j : Z)
    (mesg mesg' : ChatCompletionMessageToolCall) :
  to_ChatCompletionMessageToolCall json_dumps self i = Returned (Some mesg) ->
  to_ChatCompletionMessageToolCall json_dumps' self' j = Returned (Some mesg') ->
  id mesg = id mesg' ->
  i = j /\ name (function mesg) = name (function mesg').
Proof.
  intros H H' Hid.
  destruct (to_call_record json_dumps self i mesg H) as (d & n & _ & _ & ->).
  destruct (to_call_record json_dumps' self' j mesg' H') as (d' & n' & _ & _ & ->).
  unfold record_of in *. cbn [id function name] in *.
  injection Hid as Hid.
  apply underscore_split in Hid as (-> & Hstr); try apply str_no_underscore.
  split; [now apply str_inj | reflexivity].
Qed.

(** ** What the capture guarantees to the converter *)

Section InvariantFacts.

Variable json_loads : string -> Loaded.
Variable json_dumps : PyVal -> string.

Lemma for_range_nth {A : Type} (f : Z -> Exec A) (count : nat) :
  forall (start : Z) (l : list A) (k : nat) (x : A),
    for_range f start count = Returned l ->
    nth_error l k = Some x ->
    f (start + Z.of_nat k) = Returned x.
Proof.
  induction count as [| n IH]; intros start l k x; cbn [for_range].
  - intros [= <-]. now destruct k.
  - destruct (f start) as [y | e] eqn:Hf; [| discriminate]. cbn [bind].
    destruct (for_range f (start + 1) n) as [rest | e] eqn:Hrest; [| discriminate].
    cbn [bind]. intros [= <-]. destruct k as [| k]; cbn [nth_error].
    + intros [= <-]. now rewrite Z.add_0_r.
    + intros Hk. rewrite <- (IH (start + 1) rest k x Hrest Hk). f_equal. lia.
Qed.

Lemma for_range_each {A : Type} (f : Z -> Exec A) (count : nat) :
  forall start,
    returns (for_range f start count) = true ->
    forall k, start <= k < start + Z.of_nat count -> returns (f k) = true.
Proof.
  induction count as [| n IH]; intros start Hret k Hk.
  - lia.
  - cbn [for_range] in Hret.
    destruct (f start) as [y | e] eqn:Hf; [| discriminate]. cbn [bind] in Hret.
    destruct (Z.eq_dec k start) as [-> | Hne]; [now rewrite Hf |].
    apply (IH (start + 1)); [| lia].
    destruct (for_range f (start + 1) n); [reflexivity | discriminate].
Qed.

(** ["call" in v] holds for every element of the calls list: the invariant
    holds on a new capture, [make_calls_list] and [reset] keep it, however
    they end, and under it the converter never raises [KeyError], at any
    index. *)
Theorem has_call_invariant (self : ChatPromptCapture) (prompter : OpenAIToolsPrompter)
    (reset_calls_list : bool) :
  Forall has_call (calls_list new_ChatPromptCapture) /\
  (Forall has_call (calls_list self) ->
   Forall has_call (calls_list (fst (make_calls_list json_loads self prompter))) /\
   Forall has_call (calls_list (reset self reset_calls_list)) /\
   forall call_id,
     to_ChatCompletionMessageToolCall json_dumps self call_id <> Raised KeyError).
Proof.
  split; [constructor |]. intros Hinv. split; [| split].
  - unfold make_calls_list.
    destruct (split (capture_content self) (func_call_token prompter)) as [segments | e];
      [| exact Hinv].
    destruct (make_calls_loop json_loads self segments) as [self' out] eqn:Hloop.
    destruct (make_calls_loop_appends json_loads segments self self' out Hloop)
      as (_ & added & Hcalls & Hadded).
    cbn [fst]. rewrite Hcalls. apply Forall_app. auto.
  - destruct reset_calls_list; [constructor | exact Hinv].
  - intros call_id. rewrite to_call_unfold.
    destruct (negb (len (calls_list self) =? 0) && (call_id <? len (calls_list self)));
      [| discriminate].
    destruct (list_getitem_cases (calls_list self) call_id)
      as [(call & -> & Hnth & _) | (-> & _)]; [| discriminate].
    cbn [bind].
    destruct (convert_call_outcomes json_dumps call call_id)
      as [(mesg & -> & _) | [(-> & _) | (_ & d & -> & Hnone)]]; try discriminate.
    rewrite Forall_forall in Hinv.
    assert (Hcall := Hinv _ (nth_error_In _ _ Hnth)).
    unfold has_call, contains, dict_has in Hcall. rewrite Hnone in Hcall.
    discriminate Hcall.
Qed.

(** The list converter returns exactly when every call of the list is a dict
    whose ["call"] is a str; the list it returns has, at each position, the
    record of the call at that position, never [None]. *)
Theorem call_list_well_formed (self : ChatPromptCapture) :
  (returns (to_ChatCompletionMessageToolCallList json_dumps self) = true <->
   forallb well_formed_call (calls_list self) = true) /\
  (forall records k x,
     to_ChatCompletionMessageToolCallList json_dumps self = Returned records ->
     nth_error records k = Some x ->
     exists d call_name,
       nth_error (calls_list self) k = Some (PyDict d) /\
       dict_get "call" d = Some (PyStr call_name) /\
       x = Some (record_of json_dumps d call_name (Z.of_nat k))).
Proof.
  assert (Hlen : Z.to_nat (num_calls self) = List.length (calls_list self))
    by (unfold num_calls, len; lia).
  split; [split |].
  - intros Hret. apply forallb_forall. intros call Hin.
    destruct (In_nth_error _ _ Hin) as (k & Hk).
    assert (Hlt : (k < List.length (calls_list self))%nat)
      by (apply nth_error_Some; congruence).
    assert (Hi : 0 <= Z.of_nat k < num_calls self) by (unfold num_calls, len; lia).
    unfold to_ChatCompletionMessageToolCallList in Hret.
    assert (Hk' := for_range_each _ _ _ Hret (Z.of_nat k) ltac:(lia)).
    destruct (to_call_at json_dumps self (Z.of_nat k) Hi) as (call' & Hnth & E).
    rewrite Nat2Z.id, Hk in Hnth. injection Hnth as <-.
    rewrite E in Hk'. unfold well_formed_call.
    destruct call as [| b | z | f | s | l | d]; try discriminate.
    destruct (dict_get "call" d) as [[| b | z | f | call_name | l | d'] |];
      try discriminate.
    reflexivity.
  - apply call_list_returns.
  - intros records k x Hret Hk.
    unfold to_ChatCompletionMessageToolCallList in Hret.
    assert (Hf := for_range_nth _ _ _ _ _ _ Hret Hk). rewrite Z.add_0_l in Hf.
    assert (Hlt : (k < List.length records)%nat) by (apply nth_error_Some; congruence).
    rewrite (for_range_length _ _ _ _ Hret), Hlen in Hlt.
    assert (Hi : 0 <= Z.of_nat k < num_calls self) by (unfold num_calls, len; lia).
    destruct (to_call_at json_dumps self (Z.of_nat k) Hi) as (call & Hnth & E).
    rewrite Nat2Z.id in Hnth. rewrite E in Hf.
    destruct call as [| b | z | f | s | l | d]; try discriminate.
    destruct (dict_get "call" d) as [[| b | z | f | call_name | l | d'] |] eqn:Hcall;
      try discriminate.
    injection Hf as <-. exists d, call_name. auto.
Qed.

End InvariantFacts.

(** ** The further statements at concrete inputs *)

Lemma renderToolsList_first_match_witness :
  exists before tool after,
    [Example.tool "time"; Example.tool "weather"; Example.tool "weather"]
      = (before ++ tool :: after)%list /\
    forallb (fun t => negb (tool_matches "weather" t)) before = true /\
    tool_type tool = "function" /\
    fd_name (tool_function tool) = "weather" /\
    "Tools: weather. Use weather. "
      = render_FUNCTIONS_LIST Example.demo_template (Some "weather") [tool].
Proof.
  apply (renderToolsList_first_match Example.demo_template "weather"
           "Tools: weather. Use weather. "
           [Example.tool "time"; Example.tool "weather"; Example.tool "weather"]).
  - discriminate.
  - reflexivity.
Defined.

(** A tool named as the choice but of another type is not found. *)
Lemma renderToolsList_none_iff_witness :
  renderToolsList Example.demo_template (Some "weather")
    [{| tool_type := "retrieval"; tool_function := tool_function (Example.tool "weather") |};
     Example.tool "time"]
  = None.
Proof.
  apply (proj2 (renderToolsList_none_iff Example.demo_template (Some "weather") _)).
  exists "weather". split; [reflexivity |]. split; [discriminate | reflexivity].
Defined.

(** A first turn without content: the text is rendered, the call fails. *)
Lemma inject_prompt_failure_witness :
  snd (inject_prompt Example.never_same Example.prompter
         (Example.two_tools_request
            (MessagesList [{| role := "assistant"; content := None |}])))
  = Raised TypeError.
Proof.
  apply (proj2 (proj2 (inject_prompt_failure Example.never_same Example.prompter
                         (Example.two_tools_request
                            (MessagesList [{| role := "assistant"; content := None |}]))))).
  split; [discriminate |].
  exists [Example.tool "time"; Example.tool "weather"].
  split; [reflexivity |]. split; [discriminate |].
  right. exists {| role := "assistant"; content := None |}, []. split; reflexivity.
Defined.

Lemma inject_prompt_twice_witness :
  inject_prompt Example.never_same Example.prompter
    (fst (inject_prompt Example.never_same Example.prompter
            (Example.two_tools_request (MessagesStr "hi"))))
  = (Example.two_tools_request
       (MessagesStr "Tools: weather. Use weather. Tools: weather. Use weather. hi"),
     Returned tt).
Proof.
  destruct (inject_prompt_twice Example.never_same Example.prompter
              (Example.two_tools_request (MessagesStr "hi"))
              "<<CALL>>" "Tools: weather. Use weather. "
              [Example.tool "time"; Example.tool "weather"]) as (Hprompt & _).
  - reflexivity.
  - reflexivity.
  - discriminate.
  - reflexivity.
  - exact (Hprompt "hi" eq_refl).
Defined.

Lemma new_OpenAIToolsPrompter_token_witness :
  exists c rest,
    "<<CALL>>" = String c rest /\
    call_token_pre Example.prompter = Some (String c "") /\
    func_call_token_size Example.prompter = Returned (1 + len_str rest).
Proof.
  destruct (new_OpenAIToolsPrompter_token Example.demo_template) as (_ & Hself).
  destruct (Hself Example.prompter eq_refl) as (_ & _ & _ & Htoken & _).
  exact (Htoken "<<CALL>>" eq_refl).
Defined.

Lemma make_calls_list_errors_witness :
  make_calls_list Json.loads (Example.capture "42" [Example.call_f])
    {| template := Example.demo_template;
       call_token_str := Some "";
       call_token_pre := None |}
  = (Example.capture "42" [Example.call_f], Raised ValueError).
Proof.
  apply (proj1 (make_calls_list_errors Json.loads (Example.capture "42" [Example.call_f])
                  {| template := Example.demo_template;
                     call_token_str := Some "";
                     call_token_pre := None |})).
  reflexivity.
Defined.

Lemma constructed_prompter_splits_witness :
  exists segments,
    split "42" (Some "<<CALL>>") = Returned segments /\
    forall e,
      snd (make_calls_list Json.loads (Example.capture "42" []) Example.prompter) = Raised e ->
      exists segment,
        In segment segments /\
        segment <> "" /\
        (Json.loads segment = LoadRaised e \/
         exists call,
           Json.loads segment = Decoded call /\
           contains "call" call = Raised TypeError /\
           e = TypeError).
Proof.
  apply (constructed_prompter_splits Json.loads Example.demo_template Example.prompter
           (Example.capture "42" [])).
  reflexivity.
Defined.

Lemma make_calls_list_empty_buffer_witness :
  make_calls_list Json.loads (reset (Example.capture "42" [Example.call_f]) false)
    Example.prompter
  = (reset (Example.capture "42" [Example.call_f]) false, Returned tt).
Proof.
  apply (make_calls_list_empty_buffer Json.loads (Example.capture "42" [Example.call_f])
           Example.prompter).
  discriminate.
Defined.

Lemma make_calls_list_objects_witness :
  make_calls_list Json.loads
    (Example.capture (Example.text_search ++ "<<CALL>>{not json<<CALL>>" ++ Example.text_f)
       [Example.call_f])
    Example.prompter
  = (Example.capture (Example.text_search ++ "<<CALL>>{not json<<CALL>>" ++ Example.text_f)
       [Example.call_f; Example.call_search; Example.call_f],
     Returned tt).
Proof.
  apply (make_calls_list_objects Json.loads
           (Example.capture
              (Example.text_search ++ "<<CALL>>{not json<<CALL>>" ++ Example.text_f)
              [Example.call_f])
           Example.prompter
           [Example.text_search; "{not json"; Example.text_f]).
  - reflexivity.
  - reflexivity.
Defined.

Lemma segments_rebuild_buffer_witness :
  String.concat "<<CALL>>" ["a"; ""; "b<<CAL"; ""] = "a<<CALL>><<CALL>>b<<CAL<<CALL>>" /\
  ["a"; ""; "b<<CAL"; ""] <> [].
Proof.
  apply (segments_rebuild_buffer "a<<CALL>><<CALL>>b<<CAL<<CALL>>" "<<CALL>>").
  reflexivity.
Defined.

Lemma index_outcomes_witness :
  to_ChatCompletionMessageToolCall Json.dumps
    (Example.capture "" [Example.call_search; Example.call_f]) (-3)
  = Raised IndexError.
Proof.
  apply (proj2 (proj2 (index_outcomes Json.dumps
                         (Example.capture "" [Example.call_search; Example.call_f]) (-3)))).
  split; [discriminate |]. unfold num_calls, len. simpl. lia.
Defined.

Lemma negative_index_from_end_witness :
  fmap payload
    (to_ChatCompletionMessageToolCall Json.dumps
       (Example.capture "" [Example.call_search; Example.call_f]) (-2))
  = fmap payload
      (to_ChatCompletionMessageToolCall Json.dumps
         (Example.capture "" [Example.call_search; Example.call_f]) 0).
Proof.
  apply (negative_index_from_end Json.dumps
           (Example.capture "" [Example.call_search; Example.call_f]) (-2)).
  unfold num_calls, len. simpl. lia.
Defined.

Lemma ids_determine_index_witness :
  0 = 0 /\ "search" = "search".
Proof.
  apply (ids_determine_index Json.dumps Json.dumps
           (Example.capture "" [Example.call_search])
           (Example.capture "" [Example.call_search; Example.call_f]) 0 0
           (record_of Json.dumps [("call", PyStr "search")] "search" 0)
           (record_of Json.dumps [("call", PyStr "search")] "search" 0));
    reflexivity.
Defined.

Lemma has_call_invariant_witness :
  Forall has_call
    (calls_list
       (fst (make_calls_list Json.loads
               (Example.capture (Example.q "call") [Example.call_search])
               Example.prompter))) /\
  Forall has_call
    (calls_list (reset (Example.capture (Example.q "call") [Example.call_search]) false)) /\
  forall call_id,
    to_ChatCompletionMessageToolCall Json.dumps
      (Example.capture (Example.q "call") [Example.call_search]) call_id
    <> Raised KeyError.
Proof.
  apply (has_call_invariant Json.loads Json.dumps
           (Example.capture (Example.q "call") [Example.call_search])
           Example.prompter false).
  repeat constructor.
Defined.

Lemma call_list_well_formed_witness :
  returns (to_ChatCompletionMessageToolCallList Json.dumps
             (Example.capture "" [Example.call_search; Example.call_f])) = true.
Proof.
  apply (proj2 (proj1 (call_list_well_formed Json.dumps
                         (Example.capture "" [Example.call_search; Example.call_f])))).
  reflexivity.
Defined.

(** [make_calls_list] does not consume the buffer: called a second time
    without a [reset] in between, it appends the same calls once more. *)
Theorem make_calls_list_twice (json_loads : string -> Loaded)
    (self : ChatPromptCapture) (prompter : OpenAIToolsPrompter) (segments : list string) :
  split (capture_content self) (func_call_token prompter) = Returned segments ->
  forallb (object_or_invalid json_loads) segments = true ->
  make_calls_list json_loads (fst (make_calls_list json_loads self prompter)) prompter
    = (set_calls_list self
         (calls_list self ++ decoded_calls json_loads segments
                          ++ decoded_calls json_loads segments),
       Returned tt).
Proof.
  intros Hsplit Hobj. unfold make_calls_list at 2. rewrite Hsplit.
  rewrite make_calls_loop_objects by assumption. cbn [fst].
  unfold make_calls_list. cbn [set_calls_list capture_content]. rewrite Hsplit.
  rewrite make_calls_loop_objects by assumption.
  cbn [set_calls_list calls_list capture_content maybe_function_call is_function_call
       prefix_size].
  now rewrite <- app_assoc.
Qed.

Lemma make_calls_list_twice_witness :
  make_calls_list Json.loads
    (fst (make_calls_list Json.loads (Example.capture Example.text_search [])
            Example.prompter))
    Example.prompter
  = (Example.capture Example.text_search [Example.call_search; Example.call_search],
     Returned tt).
Proof.
  apply (make_calls_list_twice Json.loads (Example.capture Example.text_search [])
           Example.prompter [Example.text_search]); reflexivity.
Defined.
